(** * Personal-Finance ETL pipeline: categorisation, validation gates,
      transformation pipeline and file routing.

    The development embeds [config.py], [transform.py] and the file-routing
    part of [watch.py].  A pandas [DataFrame] is a header (column names with
    their dtypes) and a list of rows; a row is a record from column names to
    cells.  Python exceptions are values of [exn] carried by [result]. *)

From Stdlib Require Import Bool Arith Lia List String Ascii ZArith QArith.
Import ListNotations.
Open Scope string_scope.
Open Scope nat_scope.
Open Scope list_scope.

Infix "+++" := String.append (at level 60, right associativity).

(* ================================================================== *)
(** * Python values, exceptions *)
(* ================================================================== *)

(** A calendar date. *)
Record date := mkdate { year : nat; month : nat; day : nat }.

(** One cell of a frame.  [NaN] stands for every value [pd.isna] accepts
    (None, float nan, NaT); [Num] is a finite int64/float64 value taken by
    its rational value; [Str] is a Python [str] over 8-bit code points;
    [Timestamp] is a pandas [Timestamp] without time zone: the day, and the
    time of that day in nanoseconds since midnight. *)
Inductive cell : Type :=
| NaN
| Num (x : Q)
| Str (s : string)
| Timestamp (d : date) (time : N).

(** Messages of the [ValueError]s the module raises. *)
Inductive value_error : Type :=
| MissingRequiredColumns (missing_cols : list string)
    (* f"Missing required columns: {missing_cols}" *)
| DataFrameIsEmpty
    (* "DataFrame is empty" *)
| ValidationFailed (check : string).
    (* f"Validation failed: {check}" *)

Inductive exn : Type :=
| ValueError (msg : value_error)
| TypeError
| KeyError (key : string)
| AttributeError.

Inductive result (A : Type) : Type :=
| Ok (a : A)
| Raise (e : exn).
Arguments Ok {A} a.
Arguments Raise {A} e.

Definition bind {A B : Type} (m : result A) (k : A -> result B) : result B :=
  match m with
  | Ok a => k a
  | Raise e => Raise e
  end.

Notation "x <- m ;; k" := (bind m (fun x => k))
  (at level 61, m at next level, right associativity).
Notation "m ;;; k" := (bind m (fun _ => k))
  (at level 61, right associativity).

(** [pd.isna] on a scalar. *)
Definition isna (c : cell) : bool :=
  match c with
  | NaN => true
  | _ => false
  end.

Definition notna (c : cell) : bool := negb (isna c).

Definition Qlt_bool (a b : Q) : bool :=
  match Qcompare a b with
  | Lt => true
  | _ => false
  end.

(** Equality of two cells as [drop_duplicates] sees it: missing values are
    equal to each other, numbers are compared by value. *)
Definition cell_eqb (a b : cell) : bool :=
  match a, b with
  | NaN, NaN => true
  | Num x, Num y => Qeq_bool x y
  | Str s, Str t => String.eqb s t
  | Timestamp d t, Timestamp e u =>
      Nat.eqb (year d) (year e) && Nat.eqb (month d) (month e)
      && Nat.eqb (day d) (day e) && N.eqb t u
  | _, _ => false
  end.

(* ================================================================== *)
(** * Records keyed by name *)
(* ================================================================== *)

Section Assoc.
Context {V : Type}.

Fixpoint lookup (k : string) (l : list (string * V)) : option V :=
  match l with
  | [] => None
  | (k', v) :: l' => if String.eqb k k' then Some v else lookup k l'
  end.

(** [d[k] = v]: replaces the entry of an existing key in place, puts a new
    key last. *)
Fixpoint assign (k : string) (v : V) (l : list (string * V))
  : list (string * V) :=
  match l with
  | [] => [(k, v)]
  | (k', v') :: l' =>
      if String.eqb k k' then (k, v) :: l' else (k', v') :: assign k v l'
  end.

Fixpoint remove (k : string) (l : list (string * V)) : list (string * V) :=
  match l with
  | [] => []
  | (k', v') :: l' =>
      if String.eqb k k' then remove k l' else (k', v') :: remove k l'
  end.

Definition has_key (k : string) (l : list (string * V)) : bool :=
  match lookup k l with
  | Some _ => true
  | None => false
  end.
End Assoc.

(* ================================================================== *)
(** * Regular expressions ([re]) *)
(* ================================================================== *)

Module re.

(** The fragment of the pattern syntax [config.py] uses. *)
Inductive regex : Type :=
| Void                         (* matches no text *)
| Eps                          (* the empty pattern *)
| Chr (c : ascii)              (* a literal character *)
| Dot                          (* [.]: any character but a newline *)
| Space                        (* [\s] *)
| Cat (r1 r2 : regex)          (* r1r2 *)
| Alt (r1 r2 : regex)          (* r1|r2 *)
| Star (r : regex).            (* r* *)

(** A compiled pattern: [re.compile(source, flags)]. *)
Record Pattern := compile { source : regex; IGNORECASE : bool }.

(** Case folding of the code points below 256 (A-Z and the accented
    capitals of Latin-1). *)
Definition lower (c : ascii) : ascii :=
  let n := nat_of_ascii c in
  if ((65 <=? n) && (n <=? 90))
     || ((192 <=? n) && (n <=? 222) && negb (n =? 215))
  then ascii_of_nat (n + 32)
  else c.

(** Whitespace among the code points below 256. *)
Definition is_space (c : ascii) : bool :=
  let n := nat_of_ascii c in
  ((9 <=? n) && (n <=? 13)) || ((28 <=? n) && (n <=? 32))
  || (n =? 133) || (n =? 160).

Definition chr_eqb (ic : bool) (p c : ascii) : bool :=
  if ic then Ascii.eqb (lower p) (lower c) else Ascii.eqb p c.

Fixpoint nullable (r : regex) : bool :=
  match r with
  | Void => false
  | Eps => true
  | Chr _ => false
  | Dot => false
  | Space => false
  | Cat r1 r2 => nullable r1 && nullable r2
  | Alt r1 r2 => nullable r1 || nullable r2
  | Star _ => true
  end.

(** The texts [w] such that [c] followed by [w] matches [r]. *)
Fixpoint deriv (ic : bool) (c : ascii) (r : regex) : regex :=
  match r with
  | Void => Void
  | Eps => Void
  | Chr p => if chr_eqb ic p c then Eps else Void
  | Dot => if Ascii.eqb c "010" then Void else Eps
  | Space => if is_space c then Eps else Void
  | Cat r1 r2 =>
      if nullable r1
      then Alt (Cat (deriv ic c r1) r2) (deriv ic c r2)
      else Cat (deriv ic c r1) r2
  | Alt r1 r2 => Alt (deriv ic c r1) (deriv ic c r2)
  | Star r1 => Cat (deriv ic c r1) (Star r1)
  end.

(** Some prefix of [s] matches [r] ([Pattern.match] is not None). *)
Fixpoint match_prefix (ic : bool) (r : regex) (s : string) : bool :=
  nullable r
  || match s with
     | EmptyString => false
     | String c s' => match_prefix ic (deriv ic c r) s'
     end.

Fixpoint search_from (ic : bool) (r : regex) (s : string) : bool :=
  match_prefix ic r s
  || match s with
     | EmptyString => false
     | String _ s' => search_from ic r s'
     end.

(** [pattern.search(s)] taken as a truth value: some part of [s]
    matches. *)
Definition search (p : Pattern) (s : string) : bool :=
  search_from (IGNORECASE p) (source p) s.

(** The texts a pattern matches in full. *)
Inductive Matches (ic : bool) : regex -> string -> Prop :=
| MEps : Matches ic Eps EmptyString
| MChr (p c : ascii) :
    chr_eqb ic p c = true -> Matches ic (Chr p) (String c EmptyString)
| MDot (c : ascii) :
    Ascii.eqb c "010" = false -> Matches ic Dot (String c EmptyString)
| MSpace (c : ascii) :
    is_space c = true -> Matches ic Space (String c EmptyString)
| MCat (r1 r2 : regex) (s1 s2 : string) :
    Matches ic r1 s1 -> Matches ic r2 s2 -> Matches ic (Cat r1 r2) (s1 +++ s2)
| MAltL (r1 r2 : regex) (s : string) :
    Matches ic r1 s -> Matches ic (Alt r1 r2) s
| MAltR (r1 r2 : regex) (s : string) :
    Matches ic r2 s -> Matches ic (Alt r1 r2) s
| MStarNil (r : regex) : Matches ic (Star r) EmptyString
| MStarCons (r : regex) (s1 s2 : string) :
    Matches ic r s1 -> Matches ic (Star r) s2 ->
    Matches ic (Star r) (s1 +++ s2).

(** Two texts of the same length that differ at most in the case of their
    letters. *)
Fixpoint same_fold (s t : string) : bool :=
  match s, t with
  | EmptyString, EmptyString => true
  | String a s', String b t' =>
      Ascii.eqb (lower a) (lower b) && same_fold s' t'
  | _, _ => false
  end.

(** Pattern text without operators. *)
Fixpoint lit (s : string) : regex :=
  match s with
  | EmptyString => Eps
  | String c EmptyString => Chr c
  | String c s' => Cat (Chr c) (lit s')
  end.

Fixpoint seq (rs : list regex) : regex :=
  match rs with
  | [] => Eps
  | [r] => r
  | r :: rs' => Cat r (seq rs')
  end.

Fixpoint alt (rs : list regex) : regex :=
  match rs with
  | [] => Void
  | [r] => r
  | r :: rs' => Alt r (alt rs')
  end.

End re.

(* ================================================================== *)
(** * os.path *)
(* ================================================================== *)

Module os_path.

Fixpoint has_slash (p : string) : bool :=
  match p with
  | EmptyString => false
  | String c p' => Ascii.eqb c "/" || has_slash p'
  end.

(** [os.path.basename]: what follows the last [/]. *)
Fixpoint basename (p : string) : string :=
  match p with
  | EmptyString => EmptyString
  | String c p' =>
      if has_slash p' then basename p'
      else if Ascii.eqb c "/" then p' else p
  end.

Fixpoint ends_with_slash (p : string) : bool :=
  match p with
  | EmptyString => false
  | String c EmptyString => Ascii.eqb c "/"
  | String _ p' => ends_with_slash p'
  end.

(** [os.path.join(a, b)] for a relative [b]. *)
Definition join (a b : string) : string :=
  match a with
  | EmptyString => b
  | _ => if ends_with_slash a then a +++ b else a +++ "/" +++ b
  end.

End os_path.

(* ================================================================== *)
(** * config.py *)
(* ================================================================== *)

Module config.
Import re os_path.

(** [os.getenv("FINANCE_WATCH_FOLDER", "./finance/watch")], for the value
    of the variable in the environment, if it is set. *)
Definition WATCH_FOLDER (env : option string) : string :=
  match env with
  | Some folder => folder
  | None => "./finance/watch"
  end.

Definition PROCESSED_FOLDER (env : option string) : string :=
  join (WATCH_FOLDER env) "../processed".

Definition FAILED_FOLDER (env : option string) : string :=
  join (WATCH_FOLDER env) "../failed".

Definition rule_set := list (string * Pattern).

(** The dict literal [CATEGORY_PATTERNS]; a dict keeps its entries in the
    order they are written. *)
Definition CATEGORY_PATTERNS : rule_set :=
  [ ("Income",
     compile (alt [lit "PAYCHECK"; lit "SALARY";
                   seq [lit "DEPOSIT"; Star Dot; lit "EMPLOYER"];
                   seq [lit "DD"; Star Space; lit "-"];
                   seq [lit "DIRECT"; Star Space; lit "DEPOSIT"]]) true);
    ("Food & Dining",
     compile (alt [lit "STARBUCKS"; lit "SBX"; lit "CHIPOTLE";
                   lit "7-ELEVEN"; lit "7-11"; lit "COFFEE";
                   lit "RESTAURANT"; lit "SAFA"; lit "CHOWMEIN";
                   lit "KHANA"]) true);
    ("Entertainment",
     compile (alt [lit "NETFLIX"; lit "SPOTIFY"; lit "HULU";
                   lit "DISNEY"]) true);
    ("Transportation",
     compile (alt [lit "UBER"; lit "LYFT"; lit "SHELL"; lit "FUEL";
                   lit "GAS"; lit "INDRIVE"]) true);
    ("Groceries",
     compile (alt [seq [lit "WHOLE"; Star Space; lit "FOODS"]; lit "WFM";
                   seq [lit "TRADER"; Star Space; lit "JOE"];
                   lit "COSTCO"]) true);
    ("Bills",
     compile (alt [lit "RENT"; lit "LANDLORD"; lit "UTILITIES";
                   lit "ELECTRIC"; lit "WATER"]) true);
    ("Shopping",
     compile (alt [lit "AMZN"; seq [lit "AMAZON"; Star Dot];
                   lit "TARGET"; lit "WALMART"]) true) ].

(** One element of a [strptime] format. *)
Inductive directive : Type :=
| dir_m                        (* %m *)
| dir_d                        (* %d *)
| dir_Y                        (* %Y *)
| dir_lit (c : ascii).

(** ["%m/%d/%Y"] *)
Definition DATE_FORMAT : list directive :=
  [dir_m; dir_lit "/"; dir_d; dir_lit "/"; dir_Y].

Definition EXPECTED_COLUMNS : list string :=
  ["date"; "description"; "category"; "transaction_type"; "amount"].

End config.

(* ================================================================== *)
(** * The part of pandas the pipeline uses *)
(* ================================================================== *)

Module pd.
Import config.

Inductive dtype : Type :=
| numeric                      (* int64, float64 *)
| object
| datetime64.

Record Series := mkSeries { s_dtype : dtype; values : list cell }.

(** A row: column name to cell.  A frame: the header with the dtype of
    each column, and the rows in index order. *)
Definition row := list (string * cell).

Record DataFrame := mkDataFrame
  { columns : list (string * dtype); rows : list row }.

Definition get (k : string) (r : row) : cell :=
  match lookup k r with
  | Some c => c
  | None => NaN
  end.

(** [len(df)] *)
Definition len (df : DataFrame) : nat := List.length (rows df).

(** [df.empty]: some axis has length 0. *)
Definition empty (df : DataFrame) : bool :=
  (List.length (rows df) =? 0) || (List.length (columns df) =? 0).

(** [df[k]] *)
Definition getitem (df : DataFrame) (k : string) : result Series :=
  match lookup k (columns df) with
  | Some dt => Ok (mkSeries dt (map (get k) (rows df)))
  | None => Raise (KeyError k)
  end.

(** [df[k] = s], for a series on the index of [df]. *)
Definition setitem (df : DataFrame) (k : string) (s : Series) : DataFrame :=
  mkDataFrame
    (assign k (s_dtype s) (columns df))
    (map (fun rv => assign k (snd rv) (fst rv))
         (combine (rows df) (values s))).

(** [s.isna().sum()] *)
Definition isna_sum (s : Series) : nat :=
  List.length (filter isna (values s)).

Definition is_datetime64_any_dtype (s : Series) : bool :=
  match s_dtype s with
  | datetime64 => true
  | _ => false
  end.

Definition is_numeric_dtype (s : Series) : bool :=
  match s_dtype s with
  | numeric => true
  | _ => false
  end.

(** [s.apply(f)]: the first call that raises ends the whole call. *)
Fixpoint apply_values (f : cell -> result cell) (l : list cell)
  : result (list cell) :=
  match l with
  | [] => Ok []
  | c :: l' => v <- f c ;; vs <- apply_values f l' ;; Ok (v :: vs)
  end.

Definition apply (f : cell -> result cell) (s : Series) : result Series :=
  vs <- apply_values f (values s) ;; Ok (mkSeries object vs).

(** Two rows agree on every column of the header. *)
Definition row_eqb (cols : list string) (r1 r2 : row) : bool :=
  forallb (fun c => cell_eqb (get c r1) (get c r2)) cols.

(** Rows of [rs] that equal no row before them; [earlier] holds the rows
    already passed ([keep='first']). *)
Fixpoint keep_first (cols : list string) (earlier rs : list row)
  : list row :=
  match rs with
  | [] => []
  | r :: rs' =>
      if existsb (row_eqb cols r) earlier
      then keep_first cols (r :: earlier) rs'
      else r :: keep_first cols (r :: earlier) rs'
  end.

(** [df.drop_duplicates()] *)
Definition drop_duplicates (df : DataFrame) : DataFrame :=
  mkDataFrame (columns df)
              (keep_first (map fst (columns df)) [] (rows df)).

(** [df.dropna(subset=[k])] *)
Definition dropna (df : DataFrame) (k : string) : DataFrame :=
  mkDataFrame (columns df) (filter (fun r => notna (get k r)) (rows df)).

Fixpoint select_header (cols : list (string * dtype)) (ks : list string)
  : result (list (string * dtype)) :=
  match ks with
  | [] => Ok []
  | k :: ks' =>
      match lookup k cols with
      | Some dt => rest <- select_header cols ks' ;; Ok ((k, dt) :: rest)
      | None => Raise (KeyError k)
      end
  end.

(** [df[[k1, ..., kn]].copy()] *)
Definition select (df : DataFrame) (ks : list string) : result DataFrame :=
  header <- select_header (columns df) ks ;;
  Ok (mkDataFrame header
        (map (fun r => map (fun k => (k, get k r)) ks) (rows df))).

Definition rename_key (m : list (string * string)) (k : string) : string :=
  match lookup k m with
  | Some k' => k'
  | None => k
  end.

Definition rename_keys {V : Type} (m : list (string * string))
    (l : list (string * V)) : list (string * V) :=
  map (fun kv => (rename_key m (fst kv), snd kv)) l.

(** [df.rename(columns=m, inplace=True)] *)
Definition rename (df : DataFrame) (m : list (string * string))
  : DataFrame :=
  mkDataFrame (rename_keys m (columns df)) (map (rename_keys m) (rows df)).

(** A cell that can sit in a column of the given dtype. *)
Definition cell_has_dtype (dt : dtype) (c : cell) : bool :=
  match dt, c with
  | _, NaN => true
  | numeric, Num _ => true
  | object, Str _ => true
  | datetime64, Timestamp _ _ => true
  | _, _ => false
  end.

(** The frames [pd.read_csv] builds: a column whose fields all read as
    numbers is numeric, with NaN for the empty fields; a column with a
    field that does not is a column of texts. *)
Definition read_csv_typed (df : DataFrame) : bool :=
  forallb
    (fun kd =>
       forallb (fun r => cell_has_dtype (snd kd) (get (fst kd) r)) (rows df))
    (columns df).

(** ** Dates *)

Definition digit_of (c : ascii) : option nat :=
  let n := nat_of_ascii c in
  if (48 <=? n) && (n <=? 57) then Some (n - 48) else None.

Definition is_leap (y : nat) : bool :=
  ((y mod 4 =? 0) && negb (y mod 100 =? 0)) || (y mod 400 =? 0).

Definition days_in_month (y m : nat) : nat :=
  match m with
  | 1 | 3 | 5 | 7 | 8 | 10 | 12 => 31
  | 4 | 6 | 9 | 11 => 30
  | 2 => if is_leap y then 29 else 28
  | _ => 0
  end.

Definition valid_date (d : date) : bool :=
  (1 <=? year d)
  && (1 <=? month d) && (month d <=? 12)
  && (1 <=? day d) && (day d <=? days_in_month (year d) (month d)).

Definition orelse {A : Type} (a b : option A) : option A :=
  match a with
  | Some x => Some x
  | None => b
  end.

(** The fields of a format are tried the way the regular expression of
    [strptime] tries them: %m is [1[0-2]|0[1-9]|[1-9]], %d is
    [3[0-1]|[1-2]\d|0[1-9]|[1-9]| [1-9]], %Y is four digits; the whole
    text has to be used. *)
Fixpoint parse_fields (fmt : list directive) (s : string) (acc : date)
  : option date :=
  match fmt with
  | [] =>
      match s with
      | EmptyString => Some acc
      | _ => None
      end
  | dir_lit c :: fmt' =>
      match s with
      | String c' s' =>
          if Ascii.eqb c c' then parse_fields fmt' s' acc else None
      | EmptyString => None
      end
  | dir_m :: fmt' =>
      let two :=
        match s with
        | String c1 (String c2 s') =>
            match digit_of c1, digit_of c2 with
            | Some 1, Some b =>
                if b <=? 2
                then parse_fields fmt' s' (mkdate (year acc) (10 + b) (day acc))
                else None
            | Some 0, Some b =>
                if 1 <=? b
                then parse_fields fmt' s' (mkdate (year acc) b (day acc))
                else None
            | _, _ => None
            end
        | _ => None
        end in
      let one :=
        match s with
        | String c1 s' =>
            match digit_of c1 with
            | Some a =>
                if 1 <=? a
                then parse_fields fmt' s' (mkdate (year acc) a (day acc))
                else None
            | None => None
            end
        | EmptyString => None
        end in
      orelse two one
  | dir_d :: fmt' =>
      let two :=
        match s with
        | String c1 (String c2 s') =>
            match digit_of c1, digit_of c2 with
            | Some 3, Some b =>
                if b <=? 1
                then parse_fields fmt' s' (mkdate (year acc) (month acc) (30 + b))
                else None
            | Some 0, Some b =>
                if 1 <=? b
                then parse_fields fmt' s' (mkdate (year acc) (month acc) b)
                else None
            | Some a, Some b =>
                if (1 <=? a) && (a <=? 2)
                then parse_fields fmt' s'
                       (mkdate (year acc) (month acc) (10 * a + b))
                else None
            | _, _ => None
            end
        | _ => None
        end in
      let one :=
        match s with
        | String c1 s' =>
            match digit_of c1 with
            | Some a =>
                if 1 <=? a
                then parse_fields fmt' s' (mkdate (year acc) (month acc) a)
                else None
            | None => None
            end
        | EmptyString => None
        end in
      let blank :=
        match s with
        | String " " (String c2 s') =>
            match digit_of c2 with
            | Some b =>
                if 1 <=? b
                then parse_fields fmt' s' (mkdate (year acc) (month acc) b)
                else None
            | None => None
            end
        | _ => None
        end in
      orelse two (orelse one blank)
  | dir_Y :: fmt' =>
      match s with
      | String c1 (String c2 (String c3 (String c4 s'))) =>
          match digit_of c1, digit_of c2, digit_of c3, digit_of c4 with
          | Some a, Some b, Some c, Some d =>
              parse_fields fmt' s'
                (mkdate (1000 * a + 100 * b + 10 * c + d)
                        (month acc) (day acc))
          | _, _, _, _ => None
          end
      | _ => None
      end
  end.

(** A text that matches the format and names a day of the calendar.  (The
    narrower range of years a nanosecond timestamp can hold is left
    out.) *)
Definition strptime (fmt : list directive) (s : string) : option date :=
  match parse_fields fmt s (mkdate 1900 1 1) with
  | Some d => if valid_date d then Some d else None
  | None => None
  end.

(** The two texts that [to_datetime] reads as the current time, whatever
    the format is. *)
Definition is_clock_text (s : string) : bool :=
  String.eqb s "now" || String.eqb s "today".

(** One value under [pd.to_datetime(..., format=fmt, errors='coerce')].  The
    texts [now] and [today] become the [reading] of the clock, with its time
    of day; a text that matches the format becomes the midnight of its day;
    what does not parse becomes NaT.  The text of a number has no [/]. *)
Definition to_datetime_value (fmt : list directive) (reading : date * N)
    (c : cell) : cell :=
  match c with
  | Str s =>
      if is_clock_text s then Timestamp (fst reading) (snd reading)
      else
        match strptime fmt s with
        | Some d => Timestamp d 0
        | None => NaN
        end
  | Timestamp d t => Timestamp d t
  | _ => NaN
  end.

(** The elements of a list with their positions, counted from [i]. *)
Fixpoint indexed {A : Type} (i : nat) (l : list A) : list (nat * A) :=
  match l with
  | [] => []
  | a :: l' => (i, a) :: indexed (S i) l'
  end.

(** [pd.to_datetime(s, format=fmt, errors='coerce')].  The values are
    converted one after the other, and the clock is read anew for each
    [now] and [today]: [clock i] is what it shows when the value at
    position [i] is converted. *)
Definition to_datetime (clock : nat -> date * N) (s : Series)
    (fmt : list directive) : Series :=
  mkSeries datetime64
    (map (fun ic => to_datetime_value fmt (clock (fst ic)) (snd ic))
         (indexed 0 (values s))).

Definition digit (n : nat) : ascii := ascii_of_nat (48 + n mod 10).

Definition pad2 (n : nat) : string :=
  String (digit (n / 10)) (String (digit n) EmptyString).

Definition pad4 (n : nat) : string :=
  String (digit (n / 1000)) (String (digit (n / 100)) (pad2 n)).

(** The [k] lowest decimal digits of [n], the highest first. *)
Fixpoint digits (k : nat) (n : N) : string :=
  match k with
  | O => EmptyString
  | S k' =>
      digits k' (n / 10)
      +++ String (digit (N.to_nat (n mod 10))) EmptyString
  end.

(** The time of day the way [str] of a [Timestamp] prints it: [HH:MM:SS],
    then the microseconds if there is a fraction of a second, then the
    nanoseconds if there are some. *)
Definition time_text (time : N) : string :=
  let seconds := (time / 1000000000)%N in
  let fraction := (time mod 1000000000)%N in
  pad2 (N.to_nat (seconds / 3600)) +++ ":"
  +++ pad2 (N.to_nat ((seconds / 60) mod 60)) +++ ":"
  +++ pad2 (N.to_nat (seconds mod 60))
  +++ (if (fraction =? 0)%N then EmptyString
       else if (fraction mod 1000 =? 0)%N
            then "." +++ digits 6 (fraction / 1000)
            else "." +++ digits 9 fraction).

Fixpoint strftime (fmt : list directive) (d : date) : string :=
  match fmt with
  | [] => EmptyString
  | dir_Y :: fmt' => pad4 (year d) +++ strftime fmt' d
  | dir_m :: fmt' => pad2 (month d) +++ strftime fmt' d
  | dir_d :: fmt' => pad2 (day d) +++ strftime fmt' d
  | dir_lit c :: fmt' => String c (strftime fmt' d)
  end.

Definition strftime_value (fmt : list directive) (c : cell) : cell :=
  match c with
  | Timestamp d _ => Str (strftime fmt d)
  | _ => NaN
  end.

(** [s.dt.strftime(fmt)]; [.dt] exists on datetime series only. *)
Definition dt_strftime (s : Series) (fmt : list directive) : result Series :=
  match s_dtype s with
  | datetime64 => Ok (mkSeries object (map (strftime_value fmt) (values s)))
  | _ => Raise AttributeError
  end.

End pd.

(* ================================================================== *)
(** * transform.py *)
(* ================================================================== *)

Module transform.
Import re config pd.

(** What [clean_transaction_data] hands back: the cleaned frame, and the
    two counts it prints on the way. *)
Record outcome := mkOutcome
  { clean_df : DataFrame;
    duplicates_removed : nat;
    invalid_dates : nat }.

Section Transform.
(** [str] of a number (the shortest decimal text that reads back as the
    same value) belongs to the interpreter. *)
Variable num_str : Q -> string.
(** The globals imported from [config]. *)
Variable CATEGORY_PATTERNS : rule_set.
Variable DATE_FORMAT : list directive.
(** The clock of the machine, as [pd.to_datetime] reads it for the dates
    [now] and [today]: [clock i] for the row at position [i]. *)
Variable clock : nat -> date * N.

(** [str(x)] *)
Definition str (c : cell) : string :=
  match c with
  | NaN => "nan"
  | Num x => num_str x
  | Str s => s
  | Timestamp d time =>
      pad4 (year d) +++ "-" +++ pad2 (month d) +++ "-" +++ pad2 (day d)
      +++ " " +++ time_text time
  end.

(** The [for ... in CATEGORY_PATTERNS.items()] loop with its early
    [return], and the [return 'Other'] after it. *)
Fixpoint first_match (rules : rule_set) (description : string) : string :=
  match rules with
  | [] => "Other"
  | (category, pattern) :: rules' =>
      if search pattern description
      then category
      else first_match rules' description
  end.

Definition categorize_transaction (description : cell) : string :=
  if isna description then "Other"
  else
    let description := str description in
    first_match CATEGORY_PATTERNS description.

(** Ordering a text or a timestamp against the int 0 raises
    [TypeError]. *)
Definition derive_transaction_type (amount : cell) : result string :=
  if isna amount then Ok "Unknown"
  else
    match amount with
    | Num x =>
        if Qlt_bool 0 x then Ok "Credit"
        else if Qlt_bool x 0 then Ok "Debit"
        else Ok "Neutral"
    | _ => Raise TypeError
    end.

(** [set(EXPECTED_COLUMNS) - set(df.columns)], listed in the order of
    [EXPECTED_COLUMNS]. *)
Definition missing_columns (df : DataFrame) : list string :=
  filter (fun c => negb (has_key c (columns df))) EXPECTED_COLUMNS.

Definition validate_raw_data (df : DataFrame) : result unit :=
  let missing_cols := missing_columns df in
  match missing_cols with
  | _ :: _ => Raise (ValueError (MissingRequiredColumns missing_cols))
  | [] =>
      if empty df then Raise (ValueError DataFrameIsEmpty)
      else Ok tt
  end.

(** The dict [checks], in the order it is written. *)
Definition checks (df : DataFrame) : result (list (string * bool)) :=
  transaction_date <- getitem df "transaction_date" ;;
  amount <- getitem df "amount" ;;
  category <- getitem df "category" ;;
  transaction_type <- getitem df "transaction_type" ;;
  Ok [ ("No nulls in date", isna_sum transaction_date =? 0);
       ("No nulls in amount", isna_sum amount =? 0);
       ("Date is datetime", is_datetime64_any_dtype transaction_date);
       ("Amount is numeric", is_numeric_dtype amount);
       ("All categories assigned", isna_sum category =? 0);
       ("All transaction types assigned",
        isna_sum transaction_type =? 0) ].

Fixpoint run_checks (cs : list (string * bool)) : result bool :=
  match cs with
  | [] => Ok true
  | (check, passed) :: cs' =>
      if passed then run_checks cs'
      else Raise (ValueError (ValidationFailed check))
  end.

Definition validate_clean_data (df : DataFrame) : result bool :=
  cs <- checks df ;; run_checks cs.

Definition clean_transaction_data (df : DataFrame) : result outcome :=
  (* Step 1: Validate input *)
  validate_raw_data df ;;;
  (* Step 2: Remove duplicates *)
  let initial_rows := len df in
  let df := drop_duplicates df in
  let duplicates_removed := initial_rows - len df in
  (* Step 3: Apply categorization *)
  description <- getitem df "description" ;;
  category_corrected <-
    apply (fun d => Ok (Str (categorize_transaction d))) description ;;
  let df := setitem df "category_corrected" category_corrected in
  (* Step 4: Derive transaction type *)
  amount <- getitem df "amount" ;;
  derived_transaction_type <-
    apply (fun a => t <- derive_transaction_type a ;; Ok (Str t)) amount ;;
  let df := setitem df "derived_transaction_type"
              derived_transaction_type in
  (* Step 5: Parse dates *)
  date_col <- getitem df "date" ;;
  let df := setitem df "date_dt" (to_datetime clock date_col DATE_FORMAT) in
  date_dt <- getitem df "date_dt" ;;
  let invalid_dates := isna_sum date_dt in
  let df := if 0 <? invalid_dates then dropna df "date_dt" else df in
  (* Step 6: Create final structure *)
  clean_df <-
    select df ["date_dt"; "description"; "category_corrected";
               "derived_transaction_type"; "amount"] ;;
  date_dt <- getitem clean_df "date_dt" ;;
  month_year <- dt_strftime date_dt [dir_Y; dir_lit "-"; dir_m] ;;
  let clean_df := setitem clean_df "month_year" month_year in
  let clean_df :=
    rename clean_df
      [ ("date_dt", "transaction_date");
        ("category_corrected", "category");
        ("derived_transaction_type", "transaction_type");
        ("description", "transaction_desc") ] in
  (* Step 7: Final validation *)
  validate_clean_data clean_df ;;;
  Ok (mkOutcome clean_df duplicates_removed invalid_dates).

(** ** The result, row by row

    The cells the steps 3 to 6 compute from one row of the input;
    [reading] is what the clock shows when the date of the row is
    converted. *)

Definition date_dt (reading : date * N) (r : row) : cell :=
  to_datetime_value DATE_FORMAT reading (get "date" r).

Definition type_cell (amount : cell) : cell :=
  match derive_transaction_type amount with
  | Ok t => Str t
  | Raise _ => NaN
  end.

Definition clean_record (reading : date * N) (r : row) : row :=
  [ ("transaction_date", date_dt reading r);
    ("transaction_desc", get "description" r);
    ("category", Str (categorize_transaction (get "description" r)));
    ("transaction_type", type_cell (get "amount" r));
    ("amount", get "amount" r);
    ("month_year",
     strftime_value [dir_Y; dir_lit "-"; dir_m] (date_dt reading r)) ].

(** The same for the row at a position, with the reading of the clock for
    that position. *)
Definition clean_record_at (ir : nat * row) : row :=
  clean_record (clock (fst ir)) (snd ir).

Definition clean_header (dt_desc dt_amount : dtype)
  : list (string * dtype) :=
  [ ("transaction_date", datetime64); ("transaction_desc", dt_desc);
    ("category", object); ("transaction_type", object);
    ("amount", dt_amount); ("month_year", object) ].

(** The rows left after deduplication, with their positions, whose date
    becomes a timestamp, and those whose date becomes NaT. *)
Definition survivors (df : DataFrame) : list (nat * row) :=
  filter (fun ir => notna (date_dt (clock (fst ir)) (snd ir)))
         (indexed 0 (rows (drop_duplicates df))).

Definition dropped (df : DataFrame) : list (nat * row) :=
  filter (fun ir => isna (date_dt (clock (fst ir)) (snd ir)))
         (indexed 0 (rows (drop_duplicates df))).

End Transform.
End transform.

(* ================================================================== *)
(** * watch.py: routing of one file *)
(* ================================================================== *)

Module watch.
Import os_path config pd transform.

(** The regular files of the file system: path to content.  The two
    folders the handler moves files to are made on demand
    ([os.makedirs]); whether another folder exists is asked of the disk. *)
Definition files := list (string * string).

(** A call either completes or raises an [Exception] [e]; [error] is
    [str(e)]. *)
Inductive run (A : Type) : Type :=
| Done (a : A)
| Failed (error : string).
Arguments Done {A} a.
Arguments Failed {A} error.

Record datetime := mkdatetime
  { on : date; hour : nat; minute : nat; second : nat }.

Record event := mkevent { is_directory : bool; src_path : string }.

Definition nl : string := String "010" EmptyString.

(** [now.strftime('%Y%m%d_%H%M%S')] *)
Definition strftime_stamp (now : datetime) : string :=
  pad4 (year (on now)) +++ pad2 (month (on now)) +++ pad2 (day (on now))
  +++ "_" +++ pad2 (hour now) +++ pad2 (minute now) +++ pad2 (second now).

(** [s.endswith(suffix)] *)
Fixpoint endswith (s suffix : string) : bool :=
  String.eqb s suffix
  || match s with
     | EmptyString => false
     | String _ s' => endswith s' suffix
     end.

(** [s.replace(old, new)] for a non-empty [old]: every occurrence, found
    from the left, without overlap; [skip] counts the characters of an
    occurrence still to pass. *)
Fixpoint replace_from (old new : string) (skip : nat) (s : string)
  : string :=
  match s with
  | EmptyString => EmptyString
  | String c s' =>
      match skip with
      | S k => replace_from old new k s'
      | O =>
          if String.prefix old s
          then new +++ replace_from old new (String.length old - 1) s'
          else String c (replace_from old new 0 s')
      end
  end.

Definition replace (s old new : string) : string :=
  replace_from old new 0 s.

(** [old in s] *)
Fixpoint contains (s old : string) : bool :=
  String.prefix old s
  || match s with
     | EmptyString => false
     | String _ s' => contains s' old
     end.

(** [shutil.move(src, dst)] of a regular file. *)
Definition shutil_move (src dst : string) (fs : files) : run files :=
  match lookup src fs with
  | Some text => Done (assign dst text (remove src fs))
  | None =>
      Failed ("[Errno 2] No such file or directory: '" +++ src +++ "'")
  end.

(** [open(path, 'w')] and the writes to it, after [os.makedirs(folder)].
    The folder that holds [path] has to exist: it does when [path] names a
    file of [folder]; for any other path the disk decides, and [on_disk]
    tells whether it has the folder that holds [path]. *)
Definition write_file (on_disk : string -> bool) (folder path text : string)
    (fs : files) : run files :=
  if String.eqb path (join folder (basename path)) || on_disk path
  then Done (assign path text fs)
  else Failed ("[Errno 2] No such file or directory: '" +++ path +++ "'").

(** The elements of a set between the braces, in the order given. *)
Fixpoint set_text (l : list string) : string :=
  match l with
  | [] => EmptyString
  | [c] => "'" +++ c +++ "'"
  | c :: l' => "'" +++ c +++ "', " +++ set_text l'
  end.

Section Handler.
Variable num_str : Q -> string.
(** [config.PROCESSED_FOLDER], [config.FAILED_FOLDER] *)
Variable PROCESSED_FOLDER FAILED_FOLDER : string.
(** The collaborators: [pd.read_csv] on the text of a file, and
    [database.insert_transactions]. *)
Variable read_csv : string -> run DataFrame.
Variable insert_transactions : DataFrame -> run nat.
(** The clock as [pd.to_datetime] reads it. *)
Variable clock : nat -> date * N.
(** The order in which the interpreter goes through a set of strings: some
    arrangement of its elements, which changes with the hash seed of the
    run. *)
Variable set_order : list string -> list string.
(** The folders of the disk, see [write_file]. *)
Variable on_disk : string -> bool.

(** [str(e)] for the exceptions of the pipeline. *)
Definition exn_text (e : exn) : string :=
  match e with
  | ValueError (MissingRequiredColumns missing_cols) =>
      "Missing required columns: {" +++ set_text (set_order missing_cols)
      +++ "}"
  | ValueError DataFrameIsEmpty => "DataFrame is empty"
  | ValueError (ValidationFailed check) => "Validation failed: " +++ check
  | TypeError => "'>' not supported between instances of 'str' and 'int'"
  | KeyError key => "'" +++ key +++ "'"
  | AttributeError => "Can only use .dt accessor with datetimelike values"
  end.

Definition move_to_processed (filepath timestamp : string) (fs : files)
  : run files :=
  let new_path :=
    join PROCESSED_FOLDER (timestamp +++ "_" +++ basename filepath) in
  shutil_move filepath new_path fs.

Definition move_to_failed (filepath timestamp error : string)
    (fs : files) : run files :=
  let new_path :=
    join FAILED_FOLDER (timestamp +++ "_" +++ basename filepath) in
  match shutil_move filepath new_path fs with
  | Failed e => Failed e
  | Done fs =>
      let error_log := replace new_path ".csv" "_ERROR.txt" in
      write_file on_disk FAILED_FOLDER error_log
        ("Error at: " +++ timestamp +++ nl
         +++ "File: " +++ basename filepath +++ nl
         +++ "Error: " +++ error +++ nl) fs
  end.

(** The body of the [try] in [process_file]. *)
Definition try_block (filepath timestamp : string) (fs : files)
  : run files :=
  (* EXTRACT *)
  match lookup filepath fs with
  | None =>
      Failed ("[Errno 2] No such file or directory: '" +++ filepath
              +++ "'")
  | Some text =>
      match read_csv text with
      | Failed e => Failed e
      | Done df =>
          (* TRANSFORM *)
          match clean_transaction_data num_str CATEGORY_PATTERNS
                  DATE_FORMAT clock df with
          | Raise e => Failed (exn_text e)
          | Ok out =>
              (* LOAD INTO DATABASE *)
              match insert_transactions (clean_df out) with
              | Failed e => Failed e
              | Done rows_inserted =>
                  (* MOVE TO PROCESSED *)
                  move_to_processed filepath timestamp fs
              end
          end
      end
  end.

Definition process_file (now : datetime) (filepath : string) (fs : files)
  : run files :=
  let timestamp := strftime_stamp now in
  match try_block filepath timestamp fs with
  | Done fs' => Done fs'
  | Failed e => (* except Exception as e *)
      move_to_failed filepath timestamp e fs
  end.

Definition on_created (now : datetime) (ev : event) (fs : files)
  : run files :=
  if is_directory ev || negb (endswith (src_path ev) ".csv")
  then Done fs
  else process_file now (src_path ev) fs.

End Handler.
End watch.

(* ================================================================== *)
(** * database.py: the guard of the insert *)
(* ================================================================== *)

Module database.
Import pd watch.

Section Insert.
(** What [insert_transactions] does after its guard (the table is made if
    it is missing, a connection is opened, the rows are sent and committed):
    the number of rows the server reports, or the error raised. *)
Variable execute_insert : DataFrame -> run nat.

Definition insert_transactions (df : DataFrame) : run nat :=
  if empty df then (* "No data to insert" *) Done 0
  else execute_insert df.

End Insert.
End database.

(* ================================================================== *)
(** * Inputs used in the examples *)
(* ================================================================== *)

Module examples.
Import config pd watch database.

(** The text of a number; no example reads it. *)
Definition no_num_str (x : Q) : string := EmptyString.

Definition csv_header : list (string * dtype) :=
  [ ("date", object); ("description", object); ("category", object);
    ("transaction_type", object); ("amount", numeric) ].

Definition csv_row (date_text description : string) (amount : cell) : row :=
  [ ("date", Str date_text); ("description", Str description);
    ("category", Str "Misc"); ("transaction_type", Str "debit");
    ("amount", amount) ].

(** A file with the line [date,description] and nothing else. *)
Definition header_only : DataFrame :=
  mkDataFrame [("date", object); ("description", object)] [].

(** A file with the full header line and no data line. *)
Definition no_data_rows : DataFrame := mkDataFrame csv_header [].

Definition starbucks : row :=
  csv_row "01/05/2024" "STARBUCKS #123" (Num (-450 # 100)).

Definition scenario_A : DataFrame := mkDataFrame csv_header [starbucks].


Definition scenario_E : DataFrame :=
  mkDataFrame csv_header
    [ starbucks;
      csv_row "2024-01-06" "NETFLIX.COM" (Num (-1599 # 100));
      csv_row "01/07/2024" "PAYCHECK ACME" (Num (2500 # 1)) ].

Definition all_dates_bad : DataFrame :=
  mkDataFrame csv_header
    [ csv_row "2024-01-06" "NETFLIX.COM" (Num (-1599 # 100));
      csv_row "yesterday" "PAYCHECK ACME" NaN ].

(** Amounts written with a currency sign are not read as numbers: the
    column holds texts. *)
Definition text_amounts : DataFrame :=
  mkDataFrame
    [ ("date", object); ("description", object); ("category", object);
      ("transaction_type", object); ("amount", object) ]
    [ csv_row "2024-01-06" "NETFLIX.COM" (Str "$15.99") ].


(** A file with a row dated [today]. *)
Definition dated_today : DataFrame :=
  mkDataFrame csv_header
    [ starbucks; csv_row "today" "NETFLIX.COM" (Num (-1599 # 100)) ].

(** What the final frame of [scenario_A] looks like, and the same frame
    with the amount and the category of its row missing. *)
Definition clean_A : DataFrame :=
  mkDataFrame
    [ ("transaction_date", datetime64); ("transaction_desc", object);
      ("category", object); ("transaction_type", object);
      ("amount", numeric); ("month_year", object) ]
    [ [ ("transaction_date", Timestamp (mkdate 2024 1 5) 0);
        ("transaction_desc", Str "STARBUCKS #123");
        ("category", Str "Food & Dining");
        ("transaction_type", Str "Debit");
        ("amount", Num (-450 # 100));
        ("month_year", Str "2024-01") ] ].

Definition clean_with_nulls : DataFrame :=
  mkDataFrame (columns clean_A)
    [ [ ("transaction_date", Timestamp (mkdate 2024 1 5) 0);
        ("transaction_desc", Str "STARBUCKS #123");
        ("category", NaN);
        ("transaction_type", Str "Unknown");
        ("amount", NaN);
        ("month_year", Str "2024-01") ] ].

(** A run of the handler: the folders of an environment without
    FINANCE_WATCH_FOLDER, a reader that returns the frame [header_only]
    for every text, an insert that takes every row. *)
Definition read_header_only (text : string) : run DataFrame :=
  Done header_only.

Definition insert_all (df : DataFrame) : run nat := Done (len df).

Definition morning : datetime := mkdatetime (mkdate 2024 1 5) 9 3 7.

(** A clock that shows, for the row at position [i], 09:03:07 of
    2024-01-05 and [i] microseconds. *)
Definition wall_clock (i : nat) : date * N :=
  (mkdate 2024 1 5, (32587000000000 + 1000 * N.of_nat i)%N).

(** An interpreter that goes through a set in the order of
    [EXPECTED_COLUMNS], and a disk without other folders than the ones the
    handler makes. *)
Definition as_expected (l : list string) : list string := l.

Definition bare_disk (path : string) : bool := false.

Definition handle (filepath : string) (fs : files) : run files :=
  process_file no_num_str (PROCESSED_FOLDER None) (FAILED_FOLDER None)
    read_header_only insert_all wall_clock as_expected bare_disk
    morning filepath fs.

(** Two rows that differ in the category the bank gave them only. *)
Definition twice_with_two_categories : DataFrame :=
  mkDataFrame csv_header
    [ starbucks;
      [ ("date", Str "01/05/2024"); ("description", Str "STARBUCKS #123");
        ("category", Str "Coffee"); ("transaction_type", Str "debit");
        ("amount", Num (-450 # 100)) ] ].

(** A row with a date and no amount. *)
Definition amount_missing : DataFrame :=
  mkDataFrame csv_header
    [ starbucks; csv_row "01/06/2024" "NETFLIX.COM" NaN ].

(** A frame without the columns the clean gate reads after the date. *)
Definition dates_only : DataFrame :=
  mkDataFrame [("transaction_date", datetime64)]
    [ [("transaction_date", Timestamp (mkdate 2024 1 5) 0)] ].

(** Readers and a database for the runs of the handler. *)
Definition read_scenario_A (text : string) : run DataFrame :=
  Done scenario_A.

Definition read_all_dates_bad (text : string) : run DataFrame :=
  Done all_dates_bad.

Definition database_down (df : DataFrame) : run nat :=
  Failed "Cannot connect to PostgreSQL!".

End examples.

(* ================================================================== *)
(** * Properties *)
(* ================================================================== *)

Import re config pd transform examples.

(** ** Records *)

Section AssocFacts.
Context {V : Type}.

Lemma lookup_assign (k k' : string) (v : V) (l : list (string * V)) :
  lookup k (assign k' v l) = if String.eqb k k' then Some v else lookup k l.
Proof.
  induction l as [|[k0 v0] l IH]; simpl.
  - destruct (String.eqb k k'); reflexivity.
  - destruct (String.eqb k' k0) eqn:E0; simpl.
    + apply String.eqb_eq in E0; subst k0.
      destruct (String.eqb k k'); reflexivity.
    + rewrite IH.
      destruct (String.eqb k k') eqn:E1, (String.eqb k k0) eqn:E2;
        try reflexivity.
      apply String.eqb_eq in E1, E2; subst.
      rewrite String.eqb_refl in E0; discriminate.
Qed.

Lemma lookup_remove (k k' : string) (l : list (string * V)) :
  lookup k (remove k' l) = if String.eqb k k' then None else lookup k l.
Proof.
  induction l as [|[k0 v0] l IH]; simpl.
  - destruct (String.eqb k k'); reflexivity.
  - destruct (String.eqb k' k0) eqn:E0; simpl.
    + rewrite IH. apply String.eqb_eq in E0; subst k0.
      destruct (String.eqb k k'); reflexivity.
    + rewrite IH.
      destruct (String.eqb k k') eqn:E1, (String.eqb k k0) eqn:E2;
        try reflexivity.
      apply String.eqb_eq in E1, E2; subst.
      rewrite String.eqb_refl in E0; discriminate.
Qed.
End AssocFacts.

Lemma get_assign (k k' : string) (c : cell) (r : row) :
  get k (assign k' c r) = if String.eqb k k' then c else get k r.
Proof.
  unfold get. rewrite lookup_assign.
  destruct (String.eqb k k'); reflexivity.
Qed.

(** ** Regular expressions: the matcher against the meaning of patterns *)

Section Regex.
Variable ic : bool.

Lemma append_empty (a b : string) :
  a +++ b = EmptyString -> a = EmptyString /\ b = EmptyString.
Proof. destruct a; simpl; [auto|discriminate]. Qed.

Lemma Matches_Cat_inv (r1 r2 : regex) (s : string) :
  Matches ic (Cat r1 r2) s ->
  exists s1 s2, s = s1 +++ s2 /\ Matches ic r1 s1 /\ Matches ic r2 s2.
Proof. intros H. inversion H; subst. eauto. Qed.

Lemma Matches_Alt_inv (r1 r2 : regex) (s : string) :
  Matches ic (Alt r1 r2) s -> Matches ic r1 s \/ Matches ic r2 s.
Proof. intros H. inversion H; subst; auto. Qed.

Lemma nullable_Matches (r : regex) :
  nullable r = true <-> Matches ic r EmptyString.
Proof.
  induction r as [| | | | |r1 IH1 r2 IH2|r1 IH1 r2 IH2|r IH]; simpl.
  - split; [discriminate|intros H; inversion H].
  - split; [intros _; constructor|reflexivity].
  - split; [discriminate|intros H; inversion H].
  - split; [discriminate|intros H; inversion H].
  - split; [discriminate|intros H; inversion H].
  - rewrite andb_true_iff, IH1, IH2. split.
    + intros [H1 H2]. exact (MCat ic r1 r2 _ _ H1 H2).
    + intros H. apply Matches_Cat_inv in H.
      destruct H as (s1 & s2 & E & H1 & H2).
      symmetry in E. apply append_empty in E. destruct E; subst. auto.
  - rewrite orb_true_iff, IH1, IH2. split.
    + intros [H|H]; [apply MAltL|apply MAltR]; exact H.
    + apply Matches_Alt_inv.
  - split; [intros _; constructor|reflexivity].
Qed.

Lemma Matches_Star_cons (r : regex) (c : ascii) (s : string) :
  Matches ic (Star r) (String c s) ->
  exists s1 s2, s = s1 +++ s2 /\ Matches ic r (String c s1)
                /\ Matches ic (Star r) s2.
Proof.
  intros H. remember (Star r) as r' eqn:Er. remember (String c s) as t eqn:Et.
  induction H as [| | | | | | | |r0 s1 s2 H1 _ H2 IH2]; try discriminate.
  injection Er as ->.
  destruct s1 as [|c1 s1].
  - simpl in Et. apply IH2; [reflexivity|exact Et].
  - simpl in Et. injection Et as -> <-. exists s1, s2. auto.
Qed.

Lemma deriv_Matches (r : regex) (c : ascii) (s : string) :
  Matches ic (deriv ic c r) s <-> Matches ic r (String c s).
Proof.
  revert s.
  induction r as [| | p | | |r1 IH1 r2 IH2|r1 IH1 r2 IH2|r IH]; intros s; simpl.
  - split; intros H; inversion H.
  - split; intros H; inversion H.
  - destruct (chr_eqb ic p c) eqn:E; split; intros H; inversion H; subst.
    + constructor; exact E.
    + constructor.
    + congruence.
  - destruct (Ascii.eqb c "010") eqn:E; split; intros H; inversion H; subst.
    + congruence.
    + constructor; exact E.
    + constructor.
  - destruct (is_space c) eqn:E; split; intros H; inversion H; subst.
    + constructor; exact E.
    + constructor.
    + congruence.
  - assert (Hcat : Matches ic (Cat (deriv ic c r1) r2) s ->
                   Matches ic (Cat r1 r2) (String c s)).
    { intros H. apply Matches_Cat_inv in H.
      destruct H as (s1 & s2 & -> & H1 & H2).
      apply IH1 in H1. exact (MCat ic r1 r2 (String c s1) s2 H1 H2). }
    assert (Hsplit : Matches ic (Cat r1 r2) (String c s) ->
              Matches ic (Cat (deriv ic c r1) r2) s
              \/ (Matches ic r1 EmptyString /\ Matches ic r2 (String c s))).
    { intros H. apply Matches_Cat_inv in H.
      destruct H as (s1 & s2 & E & H1 & H2).
      destruct s1 as [|c1 s1]; simpl in E.
      - right. subst s2. auto.
      - injection E as <- ->. left.
        apply MCat; [apply IH1; exact H1|exact H2]. }
    destruct (nullable r1) eqn:En; split; intros H.
    + apply Matches_Alt_inv in H. destruct H as [H|H]; [exact (Hcat H)|].
      apply nullable_Matches in En.
      exact (MCat ic r1 r2 EmptyString (String c s) En (proj1 (IH2 _) H)).
    + destruct (Hsplit H) as [H'|[_ H']]; [apply MAltL; exact H'|].
      apply MAltR, IH2. exact H'.
    + apply Hcat; exact H.
    + destruct (Hsplit H) as [H'|[H' _]]; [exact H'|].
      apply nullable_Matches in H'. congruence.
  - split; intros H.
    + apply Matches_Alt_inv in H.
      destruct H as [H|H]; [apply MAltL, IH1|apply MAltR, IH2]; exact H.
    + apply Matches_Alt_inv in H.
      destruct H as [H|H]; [apply MAltL, IH1|apply MAltR, IH2]; exact H.
  - split; intros H.
    + apply Matches_Cat_inv in H. destruct H as (s1 & s2 & -> & H1 & H2).
      apply IH in H1. exact (MStarCons ic r (String c s1) s2 H1 H2).
    + destruct (Matches_Star_cons r c s H) as (s1 & s2 & -> & H1 & H2).
      apply MCat; [apply IH; exact H1|exact H2].
Qed.

(** [match_prefix]: some beginning of the text is matched in full. *)
Lemma match_prefix_Matches (r : regex) (s : string) :
  match_prefix ic r s = true
  <-> exists a b, s = a +++ b /\ Matches ic r a.
Proof.
  revert r. induction s as [|c s IH]; intros r; simpl.
  - rewrite orb_false_r, nullable_Matches. split.
    + intros H. exists EmptyString, EmptyString. auto.
    + intros (a & b & E & H). symmetry in E. apply append_empty in E.
      destruct E; subst. exact H.
  - rewrite orb_true_iff, nullable_Matches, IH. split.
    + intros [H|(a & b & -> & H)].
      * exists EmptyString, (String c s). auto.
      * exists (String c a), b. split; [reflexivity|].
        apply deriv_Matches; exact H.
    + intros (a & b & E & H). destruct a as [|c' a]; simpl in E.
      * left; exact H.
      * injection E as <- ->. right. exists a, b. split; [reflexivity|].
        apply deriv_Matches; exact H.
Qed.

(** [search_from]: some part of the text is matched in full. *)
Lemma search_from_Matches (r : regex) (s : string) :
  search_from ic r s = true
  <-> exists a b c, s = a +++ b +++ c /\ Matches ic r b.
Proof.
  induction s as [|x s IH]; cbn [search_from].
  - rewrite orb_false_r, match_prefix_Matches. split.
    + intros (a & b & E & H). exists EmptyString, a, b. auto.
    + intros (a & b & c & E & H). destruct a; [|discriminate].
      exists b, c. auto.
  - rewrite orb_true_iff, match_prefix_Matches, IH. split.
    + intros [(a & b & E & H)|(a & b & c & -> & H)].
      * exists EmptyString, a, b. auto.
      * exists (String x a), b, c. auto.
    + intros (a & b & c & E & H). destruct a as [|x' a]; simpl in E.
      * left. exists b, c. auto.
      * injection E as <- ->. right. exists a, b, c. auto.
Qed.
End Regex.

(** ** Categorisation *)

Section CategorizeFacts.
Variable num_str : Q -> string.

Lemma first_match_label (rules : rule_set) (s : string) :
  In (first_match rules s) (map fst rules) \/ first_match rules s = "Other".
Proof.
  induction rules as [|[category pattern] rules IH]; simpl.
  - right; reflexivity.
  - destruct (search pattern s).
    + left; left; reflexivity.
    + destruct IH as [IH|IH]; [left; right; exact IH | right; exact IH].
Qed.

Lemma first_match_none (rules : rule_set) (s : string) :
  (forall category pattern,
      In (category, pattern) rules -> search pattern s = false) ->
  first_match rules s = "Other".
Proof.
  induction rules as [|[category pattern] rules IH]; simpl; intros H.
  - reflexivity.
  - rewrite (H category pattern) by (left; reflexivity).
    apply IH. intros c p Hin. apply (H c p). right; exact Hin.
Qed.

Lemma first_match_first (before : rule_set) (category : string)
    (pattern : Pattern) (after : rule_set) (s : string) :
  (forall c p, In (c, p) before -> search p s = false) ->
  search pattern s = true ->
  first_match (before ++ (category, pattern) :: after) s = category.
Proof.
  induction before as [|[c0 p0] before IH]; simpl; intros Hb Hm.
  - rewrite Hm; reflexivity.
  - rewrite (Hb c0 p0) by (left; reflexivity).
    apply IH; [|exact Hm].
    intros c p Hin. apply (Hb c p). right; exact Hin.
Qed.

(** C1, as amended.  For every rule set and every description,
    [categorize_transaction] returns one label, which is a label of the
    rule set or "Other", and equal descriptions get equal labels; an absent
    description gets "Other"; the empty text gets "Other" whenever no
    pattern of the rule set matches the empty text, as is the case for
    the configured [CATEGORY_PATTERNS]. *)
Theorem categorize_transaction_total (rules : rule_set) (description : cell) :
  (In (categorize_transaction num_str rules description) (map fst rules)
   \/ categorize_transaction num_str rules description = "Other")
  /\ (forall description',
        description' = description ->
        categorize_transaction num_str rules description'
        = categorize_transaction num_str rules description)
  /\ (isna description = true ->
      categorize_transaction num_str rules description = "Other")
  /\ (description = Str "" ->
      (forall category pattern,
          In (category, pattern) rules -> search pattern "" = false) ->
      categorize_transaction num_str rules description = "Other")
  /\ categorize_transaction num_str CATEGORY_PATTERNS (Str "") = "Other".
Proof.
  repeat split.
  - unfold categorize_transaction. destruct (isna description).
    + right; reflexivity.
    + apply first_match_label.
  - intros d' ->; reflexivity.
  - intros Hna. unfold categorize_transaction. rewrite Hna; reflexivity.
  - intros -> Hnone. unfold categorize_transaction; simpl.
    apply first_match_none; exact Hnone.
Qed.

(** C2.  When the text of a description is matched by the patterns of two
    rules, and by no rule declared before the first of the two, the label
    is the one of the first of the two: the rule declared first wins,
    whatever the rules between and after them are. *)
Theorem categorize_transaction_first_match_wins
    (before : rule_set) (category1 : string) (pattern1 : Pattern)
    (between : rule_set) (category2 : string) (pattern2 : Pattern)
    (after : rule_set) (description : cell) :
  isna description = false ->
  (forall c p, In (c, p) before ->
               search p (str num_str description) = false) ->
  search pattern1 (str num_str description) = true ->
  search pattern2 (str num_str description) = true ->
  categorize_transaction num_str
    (before ++ (category1, pattern1) :: between
            ++ (category2, pattern2) :: after)
    description
  = category1.
Proof.
  intros Hna Hb H1 _. unfold categorize_transaction. rewrite Hna.
  apply first_match_first; assumption.
Qed.

End CategorizeFacts.

(** C1 as stated fails: with a catch-all rule, whose pattern [.*] matches
    the empty text, the empty description gets the label of that rule and
    not "Other". *)
Lemma categorize_transaction_empty_text_counterexample :
  ~ (forall (rules : rule_set) (description : cell),
        description = NaN \/ description = Str "" ->
        categorize_transaction no_num_str rules description = "Other").
Proof.
  intros H.
  specialize (H [("Misc", compile (Star Dot) true)] (Str "")
                (or_intror eq_refl)).
  vm_compute in H. discriminate H.
Qed.

Lemma categorize_transaction_total_witness :
  categorize_transaction no_num_str [("Coffee", compile (lit "COFFEE") true)]
    (Str "")
  = "Other".
Proof.
  refine (proj1 (proj2 (proj2 (proj2
    (categorize_transaction_total no_num_str
       [("Coffee", compile (lit "COFFEE") true)] (Str ""))))) eq_refl _).
  intros category pattern [H|[]].
  inversion H; subst; reflexivity.
Defined.

Lemma categorize_transaction_first_match_wins_witness :
  categorize_transaction no_num_str CATEGORY_PATTERNS
    (Str "UBER EATS RESTAURANT")
  = "Food & Dining".
Proof.
  refine (categorize_transaction_first_match_wins no_num_str
    (firstn 1 CATEGORY_PATTERNS)
    "Food & Dining" (snd (nth 1 CATEGORY_PATTERNS ("", compile Void true)))
    (firstn 1 (skipn 2 CATEGORY_PATTERNS))
    "Transportation" (snd (nth 3 CATEGORY_PATTERNS ("", compile Void true)))
    (skipn 4 CATEGORY_PATTERNS)
    (Str "UBER EATS RESTAURANT") eq_refl _ _ _).
  - intros c p [H|[]]. inversion H; subst. vm_compute; reflexivity.
  - vm_compute; reflexivity.
  - vm_compute; reflexivity.
Defined.

(** ** Transaction type *)

Lemma Qlt_bool_true (a b : Q) : Qlt_bool a b = true <-> (a < b)%Q.
Proof.
  unfold Qlt_bool. rewrite Qlt_alt.
  destruct (a ?= b)%Q; split; intros H; (reflexivity || discriminate).
Qed.

Lemma Qlt_bool_false (a b : Q) : Qlt_bool a b = false <-> (b <= a)%Q.
Proof.
  split; intros H.
  - apply Qnot_lt_le. intros Hlt. apply Qlt_bool_true in Hlt. congruence.
  - destruct (Qlt_bool a b) eqn:E; [|reflexivity].
    apply Qlt_bool_true in E. exfalso. exact (Qlt_not_le _ _ E H).
Qed.

(** C3, as amended.  On an absent amount and on every number
    [derive_transaction_type] returns a label: "Unknown" for an absent
    amount, "Credit" above zero, "Debit" below zero, "Neutral" at zero; the
    labels it returns are exactly these four.  An amount that is a text
    (one that was not read as a number) gets no label: the comparison
    raises [TypeError]. *)
Theorem derive_transaction_type_cases (amount : cell) :
  (isna amount = true -> derive_transaction_type amount = Ok "Unknown")
  /\ (forall x, amount = Num x -> (0 < x)%Q ->
                derive_transaction_type amount = Ok "Credit")
  /\ (forall x, amount = Num x -> (x < 0)%Q ->
                derive_transaction_type amount = Ok "Debit")
  /\ (forall x, amount = Num x -> (x == 0)%Q ->
                derive_transaction_type amount = Ok "Neutral")
  /\ (forall s, amount = Str s ->
                derive_transaction_type amount = Raise TypeError)
  /\ (forall label, derive_transaction_type amount = Ok label ->
                    In label ["Credit"; "Debit"; "Neutral"; "Unknown"])
  /\ (forall label, In label ["Credit"; "Debit"; "Neutral"; "Unknown"] ->
                    exists a, derive_transaction_type a = Ok label).
Proof.
  repeat split.
  - intros H. unfold derive_transaction_type. rewrite H. reflexivity.
  - intros x -> Hx. unfold derive_transaction_type; simpl.
    apply Qlt_bool_true in Hx. rewrite Hx. reflexivity.
  - intros x -> Hx. unfold derive_transaction_type; simpl.
    assert (Qlt_bool 0 x = false) as ->
        by (apply Qlt_bool_false, Qlt_le_weak, Hx).
    apply Qlt_bool_true in Hx. rewrite Hx. reflexivity.
  - intros x -> Hx. unfold derive_transaction_type; simpl.
    assert (Qlt_bool 0 x = false) as ->
        by (apply Qlt_bool_false; rewrite Hx; apply Qle_refl).
    assert (Qlt_bool x 0 = false) as ->
        by (apply Qlt_bool_false; rewrite Hx; apply Qle_refl).
    reflexivity.
  - intros s ->. reflexivity.
  - intros label. unfold derive_transaction_type.
    destruct amount as [|x|s|d]; simpl; try discriminate.
    + intros H; inversion H; subst; simpl; tauto.
    + destruct (Qlt_bool 0 x); [|destruct (Qlt_bool x 0)];
        intros H; inversion H; subst; simpl; tauto.
  - intros label [<-|[<-|[<-|[<-|[]]]]].
    + exists (Num 1); reflexivity.
    + exists (Num (-1)); reflexivity.
    + exists (Num 0); reflexivity.
    + exists NaN; reflexivity.
Qed.

Lemma derive_transaction_type_cases_witness :
  derive_transaction_type NaN = Ok "Unknown"
  /\ derive_transaction_type (Num (1250 # 100)) = Ok "Credit"
  /\ derive_transaction_type (Num (-45 # 10)) = Ok "Debit"
  /\ derive_transaction_type (Num (0 # 7)) = Ok "Neutral".
Proof.
  split; [|split; [|split]].
  - apply (proj1 (derive_transaction_type_cases NaN)). reflexivity.
  - apply (proj1 (proj2 (derive_transaction_type_cases (Num (1250 # 100))))
             (1250 # 100) eq_refl).
    reflexivity.
  - apply (proj1 (proj2 (proj2
             (derive_transaction_type_cases (Num (-45 # 10)))))
             (-45 # 10) eq_refl).
    reflexivity.
  - apply (proj1 (proj2 (proj2 (proj2
             (derive_transaction_type_cases (Num (0 # 7))))))
             (0 # 7) eq_refl).
    reflexivity.
Defined.

(** C3 as stated fails: an amount that could not be read as a number stays
    a text in the frame, and for it the function raises instead of
    returning "Unknown". *)
Lemma derive_transaction_type_text_counterexample :
  derive_transaction_type (Str "12.50 USD") = Raise TypeError
  /\ ~ (forall amount : cell,
          exists label, derive_transaction_type amount = Ok label).
Proof.
  split; [reflexivity|].
  intros H. destruct (H (Str "12.50 USD")) as [label Hl]. discriminate Hl.
Qed.

(** ** The raw gate *)

Lemma missing_columns_spec (df : DataFrame) (c : string) :
  In c (missing_columns df)
  <-> In c EXPECTED_COLUMNS /\ lookup c (columns df) = None.
Proof.
  unfold missing_columns. rewrite filter_In. unfold has_key.
  destruct (lookup c (columns df)); simpl; intuition congruence.
Qed.

Section RawGate.
Variable num_str : Q -> string.
Variable rules : rule_set.
Variable fmt : list directive.
Variable clock : nat -> date * N.

(** C4.  The raw gate fails with the missing-columns error (the spec's
    SchemaError), naming the missing columns, whenever a required column
    is missing; it fails with the empty-frame error (the spec's
    EmptyInputError) whenever all required columns are there and the batch
    has zero rows, so that a batch with zero rows never passes: it gets
    one of the two errors; a batch with all required columns and a row
    passes.  An error of the gate is the error of the whole pipeline:
    nothing is computed on the rows. *)
Theorem validate_raw_data_gate (df : DataFrame) :
  (missing_columns df <> [] ->
   validate_raw_data df
   = Raise (ValueError (MissingRequiredColumns (missing_columns df))))
  /\ (missing_columns df = [] -> rows df = [] ->
      validate_raw_data df = Raise (ValueError DataFrameIsEmpty))
  /\ (missing_columns df = [] -> rows df <> [] ->
      validate_raw_data df = Ok tt)
  /\ (forall e, validate_raw_data df = Raise e ->
                clean_transaction_data num_str rules fmt clock df = Raise e)
  /\ (rows df = [] ->
      validate_raw_data df = Raise (ValueError DataFrameIsEmpty)
      \/ validate_raw_data df
         = Raise (ValueError (MissingRequiredColumns (missing_columns df)))).
Proof.
  unfold validate_raw_data. split; [|split; [|split; [|split]]].
  5: { intros Hrows. destruct (missing_columns df); [left|right; reflexivity].
       unfold empty. rewrite Hrows. reflexivity. }
  - destruct (missing_columns df); [intros H; contradiction|reflexivity].
  - intros -> Hrows. unfold empty. rewrite Hrows. reflexivity.
  - intros Hm Hrows. rewrite Hm. unfold empty.
    destruct (rows df); [contradiction|].
    assert (Hc : columns df <> []).
    { intros Hc. assert (Hin : In "date" (missing_columns df)).
      { apply missing_columns_spec. rewrite Hc. split; [left|]; reflexivity. }
      rewrite Hm in Hin. exact Hin. }
    destruct (columns df); [contradiction|reflexivity].
  - intros e He. unfold clean_transaction_data, validate_raw_data.
    rewrite He. reflexivity.
Qed.
End RawGate.

Lemma validate_raw_data_gate_witness :
  validate_raw_data header_only
  = Raise (ValueError (MissingRequiredColumns
                         ["category"; "transaction_type"; "amount"]))
  /\ validate_raw_data no_data_rows = Raise (ValueError DataFrameIsEmpty)
  /\ validate_raw_data scenario_A = Ok tt
  /\ clean_transaction_data no_num_str CATEGORY_PATTERNS DATE_FORMAT
       wall_clock no_data_rows
     = Raise (ValueError DataFrameIsEmpty).
Proof.
  split; [|split; [|split]].
  - apply (proj1 (validate_raw_data_gate no_num_str CATEGORY_PATTERNS
                    DATE_FORMAT wall_clock header_only)).
    vm_compute; discriminate.
  - apply (proj1 (proj2 (validate_raw_data_gate no_num_str CATEGORY_PATTERNS
                           DATE_FORMAT wall_clock no_data_rows)));
      reflexivity.
  - apply (proj1 (proj2 (proj2 (validate_raw_data_gate no_num_str
                                  CATEGORY_PATTERNS DATE_FORMAT wall_clock
                                  scenario_A)))).
    + reflexivity.
    + vm_compute; discriminate.
  - apply (proj1 (proj2 (proj2 (proj2 (validate_raw_data_gate no_num_str
                                  CATEGORY_PATTERNS DATE_FORMAT wall_clock
                                  no_data_rows))))).
    reflexivity.
Defined.

(** ** The clean gate *)

Lemma run_checks_first_failure (before : list (string * bool))
    (check : string) (after : list (string * bool)) :
  (forall c b, In (c, b) before -> b = true) ->
  run_checks (before ++ (check, false) :: after)
  = Raise (ValueError (ValidationFailed check)).
Proof.
  induction before as [|[c b] before IH]; simpl; intros H.
  - reflexivity.
  - rewrite (H c b) by (left; reflexivity).
    apply IH. intros c' b' Hin. apply (H c' b'). right; exact Hin.
Qed.

Lemma run_checks_ok (cs : list (string * bool)) (v : bool) :
  run_checks cs = Ok v ->
  v = true /\ forall c b, In (c, b) cs -> b = true.
Proof.
  induction cs as [|[c b] cs IH]; simpl.
  - intros H; inversion H. split; [reflexivity|]. intros c b [].
  - destruct b; [|discriminate].
    intros H. destruct (IH H) as [Hv Hall]. split; [exact Hv|].
    intros c' b' [Heq|Hin]; [inversion Heq; reflexivity|].
    exact (Hall c' b' Hin).
Qed.

Lemma run_checks_some_failure (cs : list (string * bool)) :
  (exists c, In (c, false) cs) ->
  exists before check after,
    cs = before ++ (check, false) :: after
    /\ (forall c b, In (c, b) before -> b = true).
Proof.
  induction cs as [|[c b] cs IH]; intros [c0 Hin]; [destruct Hin|].
  destruct b.
  - destruct Hin as [Heq|Hin]; [discriminate|].
    destruct (IH (ex_intro _ c0 Hin)) as (before & check & after & -> & Hb).
    exists ((c, true) :: before), check, after. split; [reflexivity|].
    intros c' b' [Heq|Hin']; [inversion Heq; reflexivity|].
    exact (Hb c' b' Hin').
  - exists [], c, cs. split; [reflexivity|]. intros c' b' [].
Qed.

Lemma isna_sum_zero (dt : dtype) (l : list cell) :
  (isna_sum (mkSeries dt l) =? 0) = true
  <-> forall c, In c l -> isna c = false.
Proof.
  unfold isna_sum; simpl. rewrite Nat.eqb_eq. split.
  - intros H c Hin. destruct (isna c) eqn:E; [|reflexivity].
    assert (Hf : In c (filter isna l)) by (apply filter_In; split; assumption).
    destruct (filter isna l); [destruct Hf|discriminate].
  - intros H. induction l as [|c l IH]; [reflexivity|]. simpl.
    rewrite (H c) by (left; reflexivity).
    apply IH. intros c' Hin. apply H. right; exact Hin.
Qed.

(** C5.  A frame that passes the clean gate has no null date, no null
    amount, no null category and no null transaction type in any row, and
    its amount column is numeric.  When a check of the gate is false, the
    gate raises the validation error (the spec's QualityError) with the name
    of the first false check in the order the checks are written. *)
Theorem validate_clean_data_sound (df : DataFrame) :
  (validate_clean_data df = Ok true ->
   (forall r, In r (rows df) ->
      isna (get "transaction_date" r) = false
      /\ isna (get "amount" r) = false
      /\ isna (get "category" r) = false
      /\ isna (get "transaction_type" r) = false)
   /\ lookup "amount" (columns df) = Some numeric)
  /\ (forall cs, checks df = Ok cs ->
        map fst cs
        = [ "No nulls in date"; "No nulls in amount"; "Date is datetime";
            "Amount is numeric"; "All categories assigned";
            "All transaction types assigned" ]
        /\ ((exists c, In (c, false) cs) ->
            exists check, validate_clean_data df
                          = Raise (ValueError (ValidationFailed check)))
        /\ (forall before check after,
              cs = before ++ (check, false) :: after ->
              (forall c b, In (c, b) before -> b = true) ->
              validate_clean_data df
              = Raise (ValueError (ValidationFailed check))))
  /\ validate_clean_data df <> Ok false.
Proof.
  unfold validate_clean_data, checks, getitem.
  destruct (lookup "transaction_date" (columns df)) as [dt_date|];
    [|simpl; repeat split; intros; discriminate].
  destruct (lookup "amount" (columns df)) as [dt_amount|];
    [|simpl; repeat split; intros; discriminate].
  destruct (lookup "category" (columns df)) as [dt_cat|];
    [|simpl; repeat split; intros; discriminate].
  destruct (lookup "transaction_type" (columns df)) as [dt_type|];
    [|simpl; repeat split; intros; discriminate].
  cbn [bind]. split; [|split].
  - intros H. apply run_checks_ok in H. destruct H as [_ Hall].
    assert (H1 := Hall _ _ (or_introl eq_refl)).
    assert (H2 := Hall _ _ (or_intror (or_introl eq_refl))).
    assert (H4 := Hall _ _ (or_intror (or_intror (or_intror
                                 (or_introl eq_refl))))).
    assert (H5 := Hall _ _ (or_intror (or_intror (or_intror (or_intror
                                 (or_introl eq_refl)))))).
    assert (H6 := Hall _ _ (or_intror (or_intror (or_intror (or_intror
                                 (or_intror (or_introl eq_refl))))))).
    rewrite isna_sum_zero in H1, H2, H5, H6.
    split.
    + intros r Hr. repeat split;
        [apply H1|apply H2|apply H5|apply H6];
        apply in_map_iff; exists r; (split; [reflexivity|exact Hr]).
    + unfold is_numeric_dtype in H4; simpl in H4.
      destruct dt_amount; (reflexivity || discriminate).
  - intros cs Hcs. injection Hcs as Hcs.
    split; [rewrite <- Hcs; reflexivity|]. rewrite Hcs. split.
    + intros Hex.
      destruct (run_checks_some_failure cs Hex)
        as (before & check & after & Heq & Hb).
      exists check. rewrite Heq. apply run_checks_first_failure; exact Hb.
    + intros before check after Heq Hb. rewrite Heq.
      apply run_checks_first_failure; exact Hb.
  - intros H. apply run_checks_ok in H. destruct H as [H _]. discriminate.
Qed.

Lemma validate_raw_data_ok (df : DataFrame) :
  validate_raw_data df = Ok tt ->
  (forall c, In c EXPECTED_COLUMNS ->
             exists dt, lookup c (columns df) = Some dt)
  /\ rows df <> [].
Proof.
  unfold validate_raw_data. intros H.
  destruct (missing_columns df) eqn:Em; [|discriminate]. split.
  - intros c Hc.
    destruct (lookup c (columns df)) as [dt|] eqn:El;
      [exists dt; reflexivity|].
    assert (Hin : In c (missing_columns df))
      by (apply missing_columns_spec; split; assumption).
    rewrite Em in Hin. destruct Hin.
  - unfold empty in H. destruct (rows df); [discriminate|]. discriminate.
Qed.

(** ** The pipeline, row by row *)

Section Rowwise.
Variable num_str : Q -> string.
Variable rules : rule_set.
Variable fmt : list directive.
Variable clock : nat -> date * N.

Lemma apply_values_total (f : cell -> result cell) (g : cell -> cell)
    (l : list cell) :
  (forall c, In c l -> f c = Ok (g c)) ->
  apply_values f l = Ok (map g l).
Proof.
  induction l as [|c l IH]; simpl; intros H; [reflexivity|].
  rewrite (H c) by (left; reflexivity). cbn [bind].
  rewrite IH by (intros c' Hin; apply H; right; exact Hin).
  reflexivity.
Qed.

Lemma apply_values_ok (f : cell -> result cell) (l vs : list cell) :
  apply_values f l = Ok vs -> forall c, In c l -> exists v, f c = Ok v.
Proof.
  revert vs. induction l as [|c0 l IH]; simpl; intros vs H c Hin.
  - destruct Hin.
  - destruct (f c0) as [v0|e] eqn:E0; cbn [bind] in H; [|discriminate].
    destruct (apply_values f l) as [vs'|e] eqn:El; cbn [bind] in H;
      [|discriminate].
    destruct Hin as [<-|Hin];
      [exists v0; exact E0|exact (IH vs' eq_refl c Hin)].
Qed.

Lemma indexed_snd {A : Type} (i : nat) (l : list A) :
  map snd (indexed i l) = l.
Proof.
  revert i. induction l as [|a l IH]; intros i; simpl; [reflexivity|].
  rewrite IH. reflexivity.
Qed.

Lemma indexed_In {A : Type} (i : nat) (l : list A) (ia : nat * A) :
  In ia (indexed i l) -> In (snd ia) l.
Proof.
  intros H. rewrite <- (indexed_snd i l). apply in_map. exact H.
Qed.

Lemma indexed_length {A : Type} (i : nat) (l : list A) :
  List.length (indexed i l) = List.length l.
Proof.
  rewrite <- (indexed_snd i l) at 2. rewrite length_map. reflexivity.
Qed.

Lemma indexed_map {A B : Type} (g : nat * A -> B) (i : nat) (l : list A) :
  indexed i (map g (indexed i l))
  = map (fun ia => (fst ia, g ia)) (indexed i l).
Proof.
  revert i. induction l as [|a l IH]; intros i; simpl; [reflexivity|].
  rewrite IH. reflexivity.
Qed.

(** The series of dates, when the values come from the rows with their
    positions. *)
Lemma to_datetime_indexed (dt : dtype) (g : nat * row -> cell)
    (rs : list row) :
  to_datetime clock (mkSeries dt (map g (indexed 0 rs))) fmt
  = mkSeries datetime64
      (map (fun ir => to_datetime_value fmt (clock (fst ir)) (g ir))
           (indexed 0 rs)).
Proof.
  unfold to_datetime. cbn [values]. rewrite indexed_map, map_map.
  reflexivity.
Qed.

Section Elements.
Context {A : Type}.

Lemma setitem_map (cols : list (string * dtype)) (xs : list A)
    (e : A -> row) (k : string) (dt : dtype) (f : A -> cell) :
  setitem (mkDataFrame cols (map e xs)) k (mkSeries dt (map f xs))
  = mkDataFrame (assign k dt cols) (map (fun x => assign k (f x) (e x)) xs).
Proof.
  unfold setitem; simpl. f_equal.
  induction xs as [|x xs IH]; simpl; [reflexivity|]. rewrite IH. reflexivity.
Qed.

Lemma getitem_map (cols : list (string * dtype)) (xs : list A)
    (e : A -> row) (k : string) (dt : dtype) (f : A -> cell) :
  lookup k cols = Some dt ->
  (forall x, get k (e x) = f x) ->
  getitem (mkDataFrame cols (map e xs)) k = Ok (mkSeries dt (map f xs)).
Proof.
  intros Hl Hf. unfold getitem; simpl. rewrite Hl, map_map.
  do 2 f_equal. apply map_ext. exact Hf.
Qed.

Lemma filter_all (p : A -> bool) (l : list A) :
  List.length (filter (fun x => negb (p x)) l) = 0 -> filter p l = l.
Proof.
  induction l as [|x l IH]; simpl; [reflexivity|].
  destruct (p x); simpl;
    [intros H; rewrite IH by exact H; reflexivity|discriminate].
Qed.

Lemma filter_map_comm {B : Type} (p : B -> bool) (e : A -> B) (l : list A) :
  filter p (map e l) = map e (filter (fun x => p (e x)) l).
Proof.
  induction l as [|x l IH]; simpl; [reflexivity|].
  rewrite IH. destruct (p (e x)); reflexivity.
Qed.

Lemma dropna_when_invalid (cols : list (string * dtype)) (xs : list A)
    (e : A -> row) (k : string) (dt : dtype) (f : A -> cell) :
  (forall x, get k (e x) = f x) ->
  (if 0 <? isna_sum (mkSeries dt (map f xs))
   then dropna (mkDataFrame cols (map e xs)) k
   else mkDataFrame cols (map e xs))
  = mkDataFrame cols (map e (filter (fun x => notna (f x)) xs)).
Proof.
  intros Hf. destruct (0 <? _) eqn:E.
  - unfold dropna; simpl. f_equal. rewrite filter_map_comm. f_equal.
    apply filter_ext. intros x. rewrite Hf. reflexivity.
  - apply Nat.ltb_ge in E. unfold isna_sum in E; simpl in E.
    rewrite filter_map_comm, length_map in E.
    f_equal. f_equal. symmetry. apply filter_all.
    assert (Hz : List.length (filter (fun x => isna (f x)) xs) = 0) by lia.
    rewrite <- Hz. f_equal. apply filter_ext. intros x. unfold notna.
    destruct (isna (f x)); reflexivity.
Qed.

Lemma select_map (cols : list (string * dtype)) (xs : list A)
    (e : A -> row) (ks : list string) (header : list (string * dtype))
    (f : A -> row) :
  select_header cols ks = Ok header ->
  (forall x, map (fun k => (k, get k (e x))) ks = f x) ->
  select (mkDataFrame cols (map e xs)) ks
  = Ok (mkDataFrame header (map f xs)).
Proof.
  intros Hh Hf. unfold select; simpl. rewrite Hh. cbn [bind].
  rewrite map_map. do 2 f_equal. apply map_ext. exact Hf.
Qed.
End Elements.

Lemma clean_transaction_data_rowwise (df : DataFrame)
    (dt_desc dt_amount : dtype) :
  validate_raw_data df = Ok tt ->
  lookup "description" (columns df) = Some dt_desc ->
  lookup "amount" (columns df) = Some dt_amount ->
  clean_transaction_data num_str rules fmt clock df
  = (apply_values (fun a => t <- derive_transaction_type a ;; Ok (Str t))
       (map (get "amount") (rows (drop_duplicates df))) ;;;
     let clean :=
       mkDataFrame (clean_header dt_desc dt_amount)
         (map (clean_record_at num_str rules fmt clock)
              (survivors fmt clock df)) in
     validate_clean_data clean ;;;
     Ok (mkOutcome clean (len df - len (drop_duplicates df))
           (List.length (dropped fmt clock df)))).
Proof.
  intros Hraw Hdesc Hamt.
  destruct (validate_raw_data_ok df Hraw) as [Hcols _].
  destruct (Hcols "date") as [dt_date Hdate]; [simpl; tauto|].
  assert (Edf : drop_duplicates df
                = mkDataFrame (columns df)
                    (map snd (indexed 0 (rows (drop_duplicates df))))).
  { unfold drop_duplicates; simpl. rewrite indexed_snd. reflexivity. }
  unfold survivors, dropped. unfold len at 2.
  set (rs := rows (drop_duplicates df)) in *.
  match goal with |- _ = bind _ ?K => set (rhs := K) end.
  assert (Hamts : map (get "amount") rs
                  = map (fun ir : nat * row => get "amount" (snd ir))
                        (indexed 0 rs))
    by (rewrite <- (indexed_snd 0 rs) at 1; apply map_map).
  rewrite Hamts. clear Hamts.
  unfold clean_transaction_data. rewrite Hraw. cbn [bind].
  rewrite Edf. cbv zeta.
  set (cat := fun ir : nat * row =>
                Str (categorize_transaction num_str rules
                       (get "description" (snd ir)))).
  set (ty := fun ir : nat * row => type_cell (get "amount" (snd ir))).
  set (dd := fun ir : nat * row => date_dt fmt (clock (fst ir)) (snd ir)).
  rewrite (getitem_map _ _ _ _ dt_desc
             (fun ir => get "description" (snd ir)) Hdesc)
    by reflexivity.
  cbn [bind]. unfold apply at 1. cbn [values].
  rewrite (apply_values_total _
             (fun d => Str (categorize_transaction num_str rules d)))
    by reflexivity.
  cbn [bind]. rewrite map_map. fold cat.
  rewrite setitem_map.
  (* Step 4 *)
  rewrite (getitem_map _ _ _ _ dt_amount
             (fun ir => get "amount" (snd ir)));
    [|rewrite lookup_assign; exact Hamt
     |intros x; rewrite get_assign; reflexivity].
  cbn [bind]. unfold apply at 1. cbn [values].
  destruct (apply_values _ (map _ (indexed 0 rs))) as [vs|e] eqn:Ea;
    cbn [bind]; [|reflexivity].
  assert (Hvs : Ok vs
                = Ok (map type_cell
                        (map (fun ir : nat * row => get "amount" (snd ir))
                             (indexed 0 rs)))).
  { rewrite <- Ea. apply apply_values_total. intros c Hin.
    destruct (apply_values_ok _ _ _ Ea c Hin) as [v Hv].
    unfold type_cell.
    destruct (derive_transaction_type c); [reflexivity|discriminate Hv]. }
  injection Hvs as ->.
  rewrite map_map. fold ty. rewrite setitem_map.
  (* Step 5 *)
  rewrite (getitem_map _ _ _ _ dt_date (fun ir => get "date" (snd ir)));
    [|rewrite !lookup_assign; exact Hdate
     |intros x; rewrite !get_assign; reflexivity].
  cbn [bind]. rewrite to_datetime_indexed.
  change (fun ir : nat * row =>
            to_datetime_value fmt (clock (fst ir)) (get "date" (snd ir)))
    with dd.
  rewrite setitem_map.
  rewrite (getitem_map _ _ _ _ datetime64 dd);
    [|rewrite !lookup_assign; reflexivity
     |intros x; rewrite !get_assign; reflexivity].
  cbn [bind].
  rewrite dropna_when_invalid
    by (intros x; rewrite !get_assign; reflexivity).
  (* Step 6 *)
  rewrite (select_map _ _ _ _
             [ ("date_dt", datetime64); ("description", dt_desc);
               ("category_corrected", object);
               ("derived_transaction_type", object);
               ("amount", dt_amount) ]
             (fun ir => [ ("date_dt", dd ir);
                          ("description", get "description" (snd ir));
                          ("category_corrected", cat ir);
                          ("derived_transaction_type", ty ir);
                          ("amount", get "amount" (snd ir)) ]));
    [|cbn [select_header]; rewrite !lookup_assign; cbn [String.eqb];
      rewrite Hdesc, Hamt; reflexivity
     |intros x; cbn [map]; rewrite !get_assign; reflexivity].
  cbn [bind].
  rewrite (getitem_map _ _ _ _ datetime64 dd);
    [|reflexivity|reflexivity].
  cbn [bind]. unfold dt_strftime. cbn [s_dtype values bind].
  rewrite map_map, setitem_map.
  unfold rename. cbn [columns rows]. rewrite map_map.
  unfold len at 2. cbn [rows]. rewrite length_map, indexed_length.
  unfold isna_sum. cbn [values]. rewrite filter_map_comm, length_map.
  subst rhs. reflexivity.
Qed.
End Rowwise.

(** ** Deduplication *)

Lemma cell_eqb_refl (a : cell) : cell_eqb a a = true.
Proof.
  destruct a as [|x|s|d t]; simpl.
  - reflexivity.
  - apply Qeq_bool_iff. reflexivity.
  - apply String.eqb_refl.
  - rewrite !Nat.eqb_refl, N.eqb_refl. reflexivity.
Qed.

Lemma cell_eqb_trans (a b c : cell) :
  cell_eqb a b = true -> cell_eqb b c = true -> cell_eqb a c = true.
Proof.
  destruct a as [|x|s|d t1], b as [|y|t|e t2], c as [|z|u|f t3]; simpl;
    try discriminate; try reflexivity.
  - rewrite !Qeq_bool_iff. intros H1 H2. rewrite H1. exact H2.
  - rewrite !String.eqb_eq. congruence.
  - rewrite !andb_true_iff, !Nat.eqb_eq, !N.eqb_eq. intuition congruence.
Qed.

Lemma row_eqb_refl (cols : list string) (r : row) : row_eqb cols r r = true.
Proof.
  unfold row_eqb. apply forallb_forall. intros c _. apply cell_eqb_refl.
Qed.

Lemma row_eqb_trans (cols : list string) (r1 r2 r3 : row) :
  row_eqb cols r1 r2 = true -> row_eqb cols r2 r3 = true ->
  row_eqb cols r1 r3 = true.
Proof.
  unfold row_eqb. rewrite !forallb_forall. intros H1 H2 c Hc.
  exact (cell_eqb_trans _ _ _ (H1 c Hc) (H2 c Hc)).
Qed.


Section KeepFirst.
Variable cols : list string.

Lemma keep_first_incl (earlier rs : list row) (r : row) :
  In r (keep_first cols earlier rs) -> In r rs.
Proof.
  revert earlier. induction rs as [|r0 rs IH]; simpl; intros earlier H.
  - exact H.
  - destruct (existsb (row_eqb cols r0) earlier).
    + right. exact (IH _ H).
    + destruct H as [H|H]; [left; exact H|right; exact (IH _ H)].
Qed.



(** Rows already passed that cover [earlier'] cover what is dropped. *)
Lemma keep_first_again (earlier earlier' rs : list row) :
  (forall r, existsb (row_eqb cols r) earlier' = true ->
             existsb (row_eqb cols r) earlier = true) ->
  keep_first cols earlier' (keep_first cols earlier rs)
  = keep_first cols earlier rs.
Proof.
  revert earlier earlier'.
  induction rs as [|r rs IH]; simpl; intros earlier earlier' Hsub.
  - reflexivity.
  - assert (Hnext : forall x,
               existsb (row_eqb cols x) (r :: earlier') = true ->
               existsb (row_eqb cols x) (r :: earlier) = true).
    { intros x. simpl. rewrite !orb_true_iff.
      intros [H|H]; [left; exact H|right; exact (Hsub x H)]. }
    destruct (existsb (row_eqb cols r) earlier) eqn:E.
    + apply IH. intros x Hx. simpl. rewrite orb_true_iff. right.
      exact (Hsub x Hx).
    + simpl.
      destruct (existsb (row_eqb cols r) earlier') eqn:E'.
      * rewrite (Hsub r E') in E. discriminate.
      * f_equal. apply IH. exact Hnext.
Qed.

(** Every row has an equal row among those kept, or among those passed
    before. *)
Lemma keep_first_represents (earlier rs : list row) (x : row) :
  In x rs ->
  (exists k, In k (keep_first cols earlier rs) /\ row_eqb cols x k = true)
  \/ (exists e, In e earlier /\ row_eqb cols x e = true).
Proof.
  revert earlier. induction rs as [|r rs IH]; intros earlier Hin.
  - destruct Hin.
  - simpl. destruct Hin as [->|Hin].
    + destruct (existsb (row_eqb cols x) earlier) eqn:E.
      * right. apply existsb_exists in E. destruct E as (e & He & Hx).
        exists e. auto.
      * left. exists x. split; [left; reflexivity|apply row_eqb_refl].
    + destruct (IH (r :: earlier) Hin) as [(k & Hk & Hx)|(e & He & Hx)].
      * left. exists k. split; [|exact Hx].
        destruct (existsb (row_eqb cols r) earlier);
          [exact Hk|right; exact Hk].
      * destruct He as [<-|He]; [|right; exists e; auto].
        destruct (existsb (row_eqb cols r) earlier) eqn:E.
        -- right. apply existsb_exists in E. destruct E as (e & He & Hr).
           exists e. split; [exact He|].
           exact (row_eqb_trans _ _ _ _ Hx Hr).
        -- left. exists r. split; [left; reflexivity|exact Hx].
Qed.
End KeepFirst.

(** ** The pipeline on frames read from a file *)



Lemma derive_transaction_type_numeric (c : cell) :
  cell_has_dtype numeric c = true ->
  exists t, derive_transaction_type c = Ok t.
Proof.
  destruct c as [|x|s|d t]; simpl; try discriminate; intros _.
  - exists "Unknown"; reflexivity.
  - unfold derive_transaction_type; simpl.
    destruct (Qlt_bool 0 x); [|destruct (Qlt_bool x 0)]; eexists; reflexivity.
Qed.

Lemma type_cell_notna (c : cell) (t : string) :
  derive_transaction_type c = Ok t -> isna (type_cell c) = false.
Proof. intros H. unfold type_cell. rewrite H. reflexivity. Qed.

Lemma drop_duplicates_rows_incl (df : DataFrame) (r : row) :
  In r (rows (drop_duplicates df)) -> In r (rows df).
Proof. unfold drop_duplicates; simpl. apply keep_first_incl. Qed.

Section CleanFrames.
Variable num_str : Q -> string.
Variable rules : rule_set.
Variable fmt : list directive.
Variable clock : nat -> date * N.

Lemma validate_clean_data_clean_records (dt_desc : dtype)
    (irs : list (nat * row)) :
  (forall ir, In ir irs ->
     isna (date_dt fmt (clock (fst ir)) (snd ir)) = false
     /\ isna (get "amount" (snd ir)) = false
     /\ isna (type_cell (get "amount" (snd ir))) = false) ->
  validate_clean_data
    (mkDataFrame (clean_header dt_desc numeric)
                 (map (clean_record_at num_str rules fmt clock) irs))
  = Ok true.
Proof.
  intros H.
  assert (Hcol : forall (k : string) (dt : dtype) (f : nat * row -> cell),
             (forall ir,
                get k (clean_record_at num_str rules fmt clock ir) = f ir) ->
             (forall ir, In ir irs -> isna (f ir) = false) ->
             (isna_sum
                (mkSeries dt
                   (map (get k)
                      (map (clean_record_at num_str rules fmt clock) irs)))
              =? 0) = true).
  { intros k dt f Hf Hna. apply isna_sum_zero. intros c Hc.
    rewrite map_map in Hc. apply in_map_iff in Hc.
    destruct Hc as (ir & <- & Hr). rewrite Hf. exact (Hna ir Hr). }
  unfold validate_clean_data, checks, getitem.
  cbn [columns rows clean_header lookup String.eqb Ascii.eqb Bool.eqb bind].
  rewrite (Hcol "transaction_date" datetime64
             (fun ir => date_dt fmt (clock (fst ir)) (snd ir)))
    by (try reflexivity; intros ir Hr; apply (H ir Hr)).
  rewrite (Hcol "amount" numeric (fun ir => get "amount" (snd ir)))
    by (try reflexivity; intros ir Hr; apply (H ir Hr)).
  rewrite (Hcol "category" object
             (fun ir => Str (categorize_transaction num_str rules
                               (get "description" (snd ir)))))
    by reflexivity.
  rewrite (Hcol "transaction_type" object
             (fun ir => type_cell (get "amount" (snd ir))))
    by (try reflexivity; intros ir Hr; apply (H ir Hr)).
  reflexivity.
Qed.
End CleanFrames.

(** Whether a date becomes a timestamp or NaT does not depend on what the
    clock shows, and is the same for two cells that deduplication takes for
    equal. *)
Lemma to_datetime_value_eqb (fmt : list directive) (r1 r2 : date * N)
    (a b : cell) :
  cell_eqb a b = true ->
  isna (to_datetime_value fmt r1 a) = isna (to_datetime_value fmt r2 b).
Proof.
  destruct a as [|x|s|d t1], b as [|y|t|e t2]; simpl; try discriminate;
    try reflexivity.
  rewrite String.eqb_eq. intros <-.
  destruct (is_clock_text s); [reflexivity|].
  destruct (strptime fmt s); reflexivity.
Qed.

Lemma isna_date_dt_reading (fmt : list directive) (r1 r2 : date * N)
    (r : row) :
  isna (date_dt fmt r1 r) = isna (date_dt fmt r2 r).
Proof. unfold date_dt. apply to_datetime_value_eqb, cell_eqb_refl. Qed.

Lemma drop_duplicates_idempotent (df : DataFrame) :
  drop_duplicates (drop_duplicates df) = drop_duplicates df.
Proof.
  unfold drop_duplicates; simpl. f_equal.
  apply keep_first_again. intros r H; exact H.
Qed.

Lemma drop_duplicates_nonempty (df : DataFrame) :
  rows df <> [] -> 0 < len (drop_duplicates df).
Proof.
  unfold len, drop_duplicates; simpl.
  destruct (rows df) as [|r rs]; [intros H; contradiction|].
  intros _. simpl. lia.
Qed.


Section Pipeline.
Variable num_str : Q -> string.
Variable rules : rule_set.
Variable fmt : list directive.
Variable clock : nat -> date * N.

(** Whenever the pipeline returns, its frame holds the records of the rows
    left after deduplication whose date becomes a timestamp, and its counts
    are those of the rows removed as duplicates and of the rows dropped for
    their date. *)
Lemma clean_transaction_data_ok_rows (df : DataFrame) (out : outcome) :
  clean_transaction_data num_str rules fmt clock df = Ok out ->
  rows (clean_df out)
  = map (clean_record_at num_str rules fmt clock) (survivors fmt clock df)
  /\ duplicates_removed out = len df - len (drop_duplicates df)
  /\ invalid_dates out = List.length (dropped fmt clock df).
Proof.
  intros H.
  assert (Hraw : validate_raw_data df = Ok tt).
  { unfold clean_transaction_data in H.
    destruct (validate_raw_data df) as [[]|e]; [reflexivity|discriminate H]. }
  destruct (validate_raw_data_ok df Hraw) as [Hcols _].
  destruct (Hcols "description") as [dt_desc Hdesc]; [simpl; tauto|].
  destruct (Hcols "amount") as [dt_amount Hamt]; [simpl; tauto|].
  rewrite (clean_transaction_data_rowwise num_str rules fmt clock df
             dt_desc dt_amount Hraw Hdesc Hamt) in H.
  destruct (apply_values _ _); cbn [bind] in H; [|discriminate H].
  cbv zeta in H.
  destruct (validate_clean_data _); cbn [bind] in H; [|discriminate H].
  injection H as <-. repeat split.
Qed.

Lemma clean_transaction_data_succeeds (df : DataFrame) (dt_desc : dtype) :
  validate_raw_data df = Ok tt ->
  (forall r, In r (rows df) ->
             cell_has_dtype numeric (get "amount" r) = true) ->
  lookup "description" (columns df) = Some dt_desc ->
  lookup "amount" (columns df) = Some numeric ->
  (forall ir, In ir (survivors fmt clock df) ->
              isna (get "amount" (snd ir)) = false) ->
  clean_transaction_data num_str rules fmt clock df
  = Ok (mkOutcome
          (mkDataFrame (clean_header dt_desc numeric)
             (map (clean_record_at num_str rules fmt clock)
                  (survivors fmt clock df)))
          (len df - len (drop_duplicates df))
          (List.length (dropped fmt clock df))).
Proof.
  intros Hraw Htyped Hdesc Hamt Hvalid.
  assert (Hnum : forall r, In r (rows (drop_duplicates df)) ->
                           cell_has_dtype numeric (get "amount" r) = true).
  { intros r Hr. apply Htyped, drop_duplicates_rows_incl. exact Hr. }
  rewrite (clean_transaction_data_rowwise num_str rules fmt clock df
             dt_desc numeric Hraw Hdesc Hamt).
  rewrite (apply_values_total _ type_cell).
  2:{ intros c Hin. apply in_map_iff in Hin. destruct Hin as (r & <- & Hr).
      destruct (derive_transaction_type_numeric _ (Hnum r Hr)) as [t Ht].
      unfold type_cell. rewrite Ht. reflexivity. }
  cbn [bind]. cbv zeta.
  rewrite validate_clean_data_clean_records; [reflexivity|].
  intros ir Hr. assert (Ha := Hvalid ir Hr).
  unfold survivors in Hr. apply filter_In in Hr.
  destruct Hr as [Hr Hd]. unfold notna in Hd.
  apply negb_true_iff in Hd. split; [exact Hd|]. split; [exact Ha|].
  destruct (derive_transaction_type_numeric _
              (Hnum (snd ir) (indexed_In _ _ _ Hr))) as [t Ht].
  exact (type_cell_notna _ _ Ht).
Qed.



(** C10, as amended.  When a frame passes the raw gate, its amount column
    is numeric (every amount is a number or missing), and the date of
    every row becomes NaT
    (it does not match the format and is neither [now] nor [today]), the
    pipeline does not fail: every row left after deduplication is dropped
    for its date, the frame of zero rows passes the clean gate, and the
    pipeline returns it, with the number of dropped rows. *)
Theorem all_dates_unparseable (df : DataFrame) :
  validate_raw_data df = Ok tt ->
  lookup "amount" (columns df) = Some numeric ->
  (forall r, In r (rows df) ->
             cell_has_dtype numeric (get "amount" r) = true) ->
  (forall r reading, In r (rows df) -> isna (date_dt fmt reading r) = true) ->
  exists dt_desc,
    clean_transaction_data num_str rules fmt clock df
    = Ok (mkOutcome
            (mkDataFrame (clean_header dt_desc numeric) [])
            (len df - len (drop_duplicates df))
            (len (drop_duplicates df)))
    /\ validate_clean_data (mkDataFrame (clean_header dt_desc numeric) [])
       = Ok true
    /\ 0 < len (drop_duplicates df).
Proof.
  intros Hraw Hamt Htyped Hbad.
  destruct (validate_raw_data_ok df Hraw) as [Hcols Hrows].
  destruct (Hcols "description") as [dt_desc Hdesc]; [simpl; tauto|].
  assert (Hl : forall ir, In ir (indexed 0 (rows (drop_duplicates df))) ->
                 isna (date_dt fmt (clock (fst ir)) (snd ir)) = true).
  { intros ir Hr. apply Hbad, drop_duplicates_rows_incl.
    exact (indexed_In _ _ _ Hr). }
  assert (Hs : survivors fmt clock df = []).
  { unfold survivors.
    induction (indexed 0 (rows (drop_duplicates df))) as [|ir l IH];
      [reflexivity|].
    cbn [filter]. unfold notna at 1.
    rewrite (Hl ir) by (left; reflexivity). cbn [negb].
    apply IH. intros ir' Hr'. apply Hl. right; exact Hr'. }
  assert (Hd : dropped fmt clock df = indexed 0 (rows (drop_duplicates df))).
  { unfold dropped.
    induction (indexed 0 (rows (drop_duplicates df))) as [|ir l IH];
      [reflexivity|].
    cbn [filter]. rewrite (Hl ir) by (left; reflexivity). f_equal.
    apply IH. intros ir' Hr'. apply Hl. right; exact Hr'. }
  exists dt_desc.
  split; [|split; [reflexivity|apply drop_duplicates_nonempty; exact Hrows]].
  rewrite (clean_transaction_data_succeeds df dt_desc Hraw Htyped Hdesc Hamt)
    by (rewrite Hs; intros r []).
  rewrite Hs, Hd, indexed_length. reflexivity.
Qed.


(** C8.  The frame of the single row with the date "01/05/2024", the
    description "STARBUCKS #123" and the amount -4.50, whatever its
    category and transaction_type cells hold, gives one clean record: the
    date is the 5th of January 2024 (month first) at midnight, the category
    is "Food & Dining", the transaction type is "Debit" and month_year is
    "2024-01". *)
Theorem scenario_A_clean_record (category transaction_type : cell) :
  clean_transaction_data num_str CATEGORY_PATTERNS DATE_FORMAT clock
    (mkDataFrame csv_header
       [ [ ("date", Str "01/05/2024");
           ("description", Str "STARBUCKS #123");
           ("category", category);
           ("transaction_type", transaction_type);
           ("amount", Num (-450 # 100)) ] ])
  = Ok (mkOutcome
          (mkDataFrame
             [ ("transaction_date", datetime64);
               ("transaction_desc", object);
               ("category", object); ("transaction_type", object);
               ("amount", numeric); ("month_year", object) ]
             [ [ ("transaction_date", Timestamp (mkdate 2024 1 5) 0);
                 ("transaction_desc", Str "STARBUCKS #123");
                 ("category", Str "Food & Dining");
                 ("transaction_type", Str "Debit");
                 ("amount", Num (-450 # 100));
                 ("month_year", Str "2024-01") ] ])
          0 0).
Proof. vm_compute. reflexivity. Qed.

End Pipeline.

(** ** File routing *)

Import os_path watch.

Lemma append_assoc (a b c : string) : (a +++ b) +++ c = a +++ (b +++ c).
Proof.
  induction a as [|x a IH]; simpl; [reflexivity|rewrite IH; reflexivity].
Qed.

Lemma length_append (a b : string) :
  String.length (a +++ b) = String.length a + String.length b.
Proof.
  induction a as [|x a IH]; simpl; [reflexivity|rewrite IH; reflexivity].
Qed.

Lemma append_inv_head (a b c : string) : a +++ b = a +++ c -> b = c.
Proof.
  induction a as [|x a IH]; simpl; intros H; [exact H|].
  inversion H. apply IH. assumption.
Qed.

Lemma join_append (a b c : string) : join a (b +++ c) = join a b +++ c.
Proof.
  unfold join. destruct a as [|x a]; [reflexivity|].
  destruct (ends_with_slash (String x a)); rewrite !append_assoc; reflexivity.
Qed.

Lemma has_slash_append (a b : string) :
  has_slash (a +++ b) = has_slash a || has_slash b.
Proof.
  induction a as [|x a IH]; simpl; [reflexivity|].
  rewrite IH, orb_assoc. reflexivity.
Qed.

Lemma has_slash_basename (p : string) : has_slash (basename p) = false.
Proof.
  induction p as [|c p IH]; simpl; [reflexivity|].
  destruct (has_slash p) eqn:E; [exact IH|].
  destruct (Ascii.eqb c "/") eqn:Ec; [exact E|].
  simpl. rewrite Ec, E. reflexivity.
Qed.

Lemma basename_no_slash (p : string) : has_slash p = false -> basename p = p.
Proof.
  destruct p as [|c p]; simpl; [reflexivity|].
  intros H. apply orb_false_iff in H. destruct H as [Hc Hp].
  rewrite Hp, Hc. reflexivity.
Qed.

Lemma basename_after_slash (a b : string) :
  has_slash b = false -> basename (a +++ String "/" b) = b.
Proof.
  intros Hb. induction a as [|c a IH]; simpl.
  - rewrite Hb. reflexivity.
  - rewrite has_slash_append. simpl. rewrite orb_true_r. exact IH.
Qed.

Lemma ends_with_slash_split (a : string) :
  ends_with_slash a = true -> exists a0, a = a0 +++ "/".
Proof.
  induction a as [|c a IH]; simpl; [discriminate|].
  destruct a as [|c' a'].
  - intros H. apply Ascii.eqb_eq in H. subst c. exists EmptyString.
    reflexivity.
  - intros H. destruct (IH H) as [a0 Ha0]. exists (String c a0).
    simpl. rewrite <- Ha0. reflexivity.
Qed.

Lemma basename_join (a b : string) :
  has_slash b = false -> basename (join a b) = b.
Proof.
  intros Hb. unfold join. destruct a as [|x a].
  - apply basename_no_slash; exact Hb.
  - destruct (ends_with_slash (String x a)) eqn:E.
    + destruct (ends_with_slash_split _ E) as [a0 ->].
      rewrite append_assoc. apply basename_after_slash; exact Hb.
    + apply (basename_after_slash (String x a) b Hb).
Qed.

Lemma digit_not_slash (n : nat) : Ascii.eqb (digit n) "/" = false.
Proof.
  unfold digit. assert (H : n mod 10 < 10) by (apply Nat.mod_upper_bound; lia).
  remember (n mod 10) as m eqn:Em. clear Em.
  do 10 (destruct m as [|m]; [reflexivity|]). lia.
Qed.

Lemma has_slash_stamp (now : datetime) : has_slash (strftime_stamp now) = false.
Proof.
  unfold strftime_stamp, pad4, pad2. cbn [String.append has_slash].
  rewrite !digit_not_slash. reflexivity.
Qed.

Lemma length_stamp (now : datetime) : String.length (strftime_stamp now) = 15.
Proof. reflexivity. Qed.

Lemma prefix_csv_straddle (c : ascii) (pre : string) :
  String.prefix ".csv" (String c pre) = false ->
  String.prefix ".csv" (String c (pre +++ ".csv")) = false.
Proof.
  intros H. cbn [String.prefix] in *.
  destruct (ascii_dec "." c); [|reflexivity].
  destruct pre as [|c1 pre]; [reflexivity|].
  cbn [String.append String.prefix] in *.
  destruct (ascii_dec "c" c1); [|reflexivity].
  destruct pre as [|c2 pre]; [reflexivity|].
  cbn [String.append String.prefix] in *.
  destruct (ascii_dec "s" c2); [|reflexivity].
  destruct pre as [|c3 pre]; [reflexivity|].
  cbn [String.append String.prefix] in *.
  destruct (ascii_dec "v" c3); [|reflexivity].
  destruct pre; discriminate H.
Qed.

Lemma replace_csv_suffix (pre new : string) :
  contains pre ".csv" = false ->
  replace (pre +++ ".csv") ".csv" new = pre +++ new.
Proof.
  unfold replace. induction pre as [|c pre IH]; intros H.
  - cbn. induction new as [|x new IHn]; simpl; [reflexivity|].
    f_equal. exact IHn.
  - cbn [contains] in H. apply orb_false_iff in H. destruct H as [Hp Hc].
    cbn [String.append replace_from].
    rewrite (prefix_csv_straddle c pre Hp). f_equal. exact (IH Hc).
Qed.

Section HandlerFacts.
Variable num_str : Q -> string.
Variable PROCESSED_FOLDER FAILED_FOLDER : string.
Variable read_csv : string -> run DataFrame.
Variable insert_transactions : DataFrame -> run nat.
Variable clock : nat -> date * N.
Variable set_order : list string -> list string.
Variable on_disk : string -> bool.

(** C9, as amended.  When the body of the [try] raises an error while
    the source file is in place, and [.csv] occurs in the path of the
    moved file only as its ending, [process_file] returns normally and has
    taken the failure route: the source file is gone from its place, its
    text is in the failed folder under the name prefixed with the
    YYYYMMDD_HHMMSS timestamp and [_], the file named with the same stem
    followed by [_ERROR.txt] next to it holds the lines
    [Error at: <timestamp>], [File: <original name>], [Error: <message>],
    and no other file has changed. *)
Theorem process_file_failure_route (now : datetime) (filepath : string)
    (fs : files) (text error stem : string) :
  lookup filepath fs = Some text ->
  try_block num_str PROCESSED_FOLDER read_csv insert_transactions
    clock set_order filepath (strftime_stamp now) fs = Failed error ->
  basename filepath = stem +++ ".csv" ->
  contains (join FAILED_FOLDER (strftime_stamp now +++ "_" +++ stem)) ".csv"
  = false ->
  let timestamp := strftime_stamp now in
  let new_path :=
    join FAILED_FOLDER (timestamp +++ "_" +++ basename filepath) in
  let error_log :=
    join FAILED_FOLDER (timestamp +++ "_" +++ stem +++ "_ERROR.txt") in
  let report :=
    "Error at: " +++ timestamp +++ nl
    +++ "File: " +++ basename filepath +++ nl
    +++ "Error: " +++ error +++ nl in
  exists fs',
    process_file num_str PROCESSED_FOLDER FAILED_FOLDER read_csv
      insert_transactions clock set_order on_disk now filepath fs
    = Done fs'
    /\ lookup filepath fs' = None
    /\ lookup new_path fs' = Some text
    /\ lookup error_log fs' = Some report
    /\ (forall p, p <> filepath -> p <> new_path -> p <> error_log ->
                  lookup p fs' = lookup p fs).
Proof.
  intros Hsrc Htry Hbase Hocc timestamp new_path error_log report.
  set (J := join FAILED_FOLDER (timestamp +++ "_" +++ stem)) in *.
  assert (Hnew : new_path = J +++ ".csv").
  { unfold new_path, J. rewrite Hbase, <- join_append.
    rewrite !append_assoc. reflexivity. }
  assert (Hlog : error_log = J +++ "_ERROR.txt").
  { unfold error_log, J. rewrite <- join_append.
    rewrite !append_assoc. reflexivity. }
  assert (Hstem : has_slash stem = false).
  { assert (H := has_slash_basename filepath). rewrite Hbase in H.
    rewrite has_slash_append in H. apply orb_false_iff in H. apply H. }
  assert (Hts : has_slash timestamp = false) by apply has_slash_stamp.
  assert (Hne1 : filepath <> new_path).
  { intros Heq. assert (H : basename filepath = basename new_path)
      by (rewrite <- Heq; reflexivity).
    unfold new_path in H. rewrite basename_join in H.
    - apply (f_equal String.length) in H. rewrite !length_append in H.
      unfold timestamp in H. rewrite length_stamp in H. simpl in H. lia.
    - rewrite !has_slash_append, Hts, has_slash_basename. reflexivity. }
  assert (Hne2 : filepath <> error_log).
  { intros Heq. assert (H : basename filepath = basename error_log)
      by (rewrite <- Heq; reflexivity).
    unfold error_log in H. rewrite basename_join in H.
    - rewrite Hbase in H. apply (f_equal String.length) in H.
      rewrite !length_append in H.
      unfold timestamp in H. rewrite length_stamp in H. simpl in H. lia.
    - rewrite !has_slash_append, Hts, Hstem. reflexivity. }
  assert (Hne3 : new_path <> error_log).
  { rewrite Hnew, Hlog. intros Heq. apply append_inv_head in Heq.
    discriminate Heq. }
  exists (assign error_log report (assign new_path text (remove filepath fs))).
  split; [|split; [|split; [|split]]].
  - unfold process_file. cbv zeta. rewrite Htry.
    unfold move_to_failed, shutil_move. rewrite Hsrc. cbv zeta.
    assert (Hrep : replace new_path ".csv" "_ERROR.txt" = error_log)
      by (rewrite Hnew, Hlog; apply replace_csv_suffix; exact Hocc).
    fold timestamp. fold new_path. rewrite Hrep. unfold write_file.
    assert (Hin : String.eqb error_log
                    (join FAILED_FOLDER (basename error_log)) = true).
    { apply String.eqb_eq. unfold error_log at 2.
      rewrite basename_join
        by (rewrite !has_slash_append, Hts, Hstem; reflexivity).
      reflexivity. }
    rewrite Hin. reflexivity.
  - rewrite !lookup_assign, lookup_remove.
    apply String.eqb_neq in Hne1, Hne2. rewrite Hne1, Hne2.
    rewrite String.eqb_refl. reflexivity.
  - rewrite !lookup_assign.
    apply String.eqb_neq in Hne3. rewrite Hne3.
    rewrite String.eqb_refl. reflexivity.
  - rewrite lookup_assign, String.eqb_refl. reflexivity.
  - intros p Hp1 Hp2 Hp3. rewrite !lookup_assign, lookup_remove.
    apply String.eqb_neq in Hp1, Hp2, Hp3. rewrite Hp1, Hp2, Hp3.
    reflexivity.
Qed.
End HandlerFacts.

Lemma process_file_repeated_extension :
  handle "./finance/watch/jan.csv.csv"
    [("./finance/watch/jan.csv.csv", "date,description")]
  = Done
      [ ("./finance/watch/../failed/20240105_090307_jan.csv.csv",
         "date,description");
        ("./finance/watch/../failed/20240105_090307_jan_ERROR.txt_ERROR.txt",
         "Error at: 20240105_090307" +++ nl
         +++ "File: jan.csv.csv" +++ nl
         +++ "Error: Missing required columns: "
         +++ "{'category', 'transaction_type', 'amount'}" +++ nl) ].
Proof. vm_compute. reflexivity. Qed.

Lemma process_file_failure_route_witness :
  exists fs',
    handle "./finance/watch/jan.csv"
      [("./finance/watch/jan.csv", "date,description")]
    = Done fs'
    /\ lookup "./finance/watch/jan.csv" fs' = None
    /\ lookup "./finance/watch/../failed/20240105_090307_jan.csv" fs'
       = Some "date,description"
    /\ lookup "./finance/watch/../failed/20240105_090307_jan_ERROR.txt" fs'
       = Some ("Error at: 20240105_090307" +++ nl
               +++ "File: jan.csv" +++ nl
               +++ "Error: Missing required columns: "
               +++ "{'category', 'transaction_type', 'amount'}" +++ nl).
Proof.
  destruct (process_file_failure_route no_num_str (PROCESSED_FOLDER None)
              (FAILED_FOLDER None) read_header_only insert_all wall_clock
              as_expected bare_disk morning
              "./finance/watch/jan.csv"
              [("./finance/watch/jan.csv", "date,description")]
              "date,description"
              ("Missing required columns: "
               +++ "{'category', 'transaction_type', 'amount'}")
              "jan" eq_refl eq_refl eq_refl eq_refl)
    as (fs' & Hrun & Hsrc & Hnew & Hlog & _).
  exists fs'. split; [exact Hrun|]. split; [exact Hsrc|].
  split; [exact Hnew|exact Hlog].
Defined.

(** C9 as stated fails: when the source file is no longer in place (it was
    removed during the settling delay), reading it raises, the move of the
    failure route raises again, and that error leaves [process_file]:
    nothing is moved and no error file is written. *)
Lemma process_file_missing_source_counterexample :
  ~ (forall (filepath : string) (fs : files) (error : string),
        try_block no_num_str (PROCESSED_FOLDER None) read_header_only
          insert_all wall_clock as_expected filepath
          (strftime_stamp morning) fs
        = Failed error ->
        exists fs', handle filepath fs = Done fs').
Proof.
  intros H.
  destruct (H "./finance/watch/jan.csv" [] _ eq_refl) as [fs' Hrun].
  vm_compute in Hrun. discriminate Hrun.
Qed.

(** ** Examples of the gates and of the pipeline *)

Lemma validate_clean_data_sound_witness :
  ((forall r, In r (rows clean_A) ->
      isna (get "transaction_date" r) = false
      /\ isna (get "amount" r) = false
      /\ isna (get "category" r) = false
      /\ isna (get "transaction_type" r) = false)
   /\ lookup "amount" (columns clean_A) = Some numeric)
  /\ validate_clean_data clean_with_nulls
     = Raise (ValueError (ValidationFailed "No nulls in amount")).
Proof.
  split.
  - apply (proj1 (validate_clean_data_sound clean_A)). reflexivity.
  - refine (proj2 (proj2 (proj1 (proj2
             (validate_clean_data_sound clean_with_nulls)) _ eq_refl))
             [("No nulls in date", true)] "No nulls in amount" _ eq_refl _).
    intros c b [H|[]]. inversion H. reflexivity.
Defined.




Lemma all_dates_unparseable_witness :
  exists out,
    clean_transaction_data no_num_str CATEGORY_PATTERNS DATE_FORMAT
      wall_clock all_dates_bad
    = Ok out
    /\ rows (clean_df out) = []
    /\ invalid_dates out = 2.
Proof.
  destruct (all_dates_unparseable no_num_str CATEGORY_PATTERNS DATE_FORMAT
              wall_clock all_dates_bad eq_refl eq_refl)
    as (dt_desc & Hrun & _).
  - intros r [<-|[<-|[]]]; reflexivity.
  - intros r reading [<-|[<-|[]]]; reflexivity.
  - eexists. split; [exact Hrun|]. split; reflexivity.
Defined.

(** C10 as stated fails: in a frame read from a file whose amounts are not
    numbers, with all required columns, a row and no date that parses, the
    pipeline fails at the derivation of the transaction type, before any
    date is looked at. *)
Lemma all_dates_unparseable_text_amounts_counterexample :
  ~ (forall df : DataFrame,
        validate_raw_data df = Ok tt ->
        read_csv_typed df = true ->
        (forall r reading,
           In r (rows df) -> isna (date_dt DATE_FORMAT reading r) = true) ->
        exists out,
          clean_transaction_data no_num_str CATEGORY_PATTERNS DATE_FORMAT
            wall_clock df
          = Ok out).
Proof.
  intros H.
  destruct (H text_amounts eq_refl eq_refl) as [out Hrun].
  - intros r reading [<-|[]]. reflexivity.
  - vm_compute in Hrun. discriminate Hrun.
Qed.

(* ================================================================== *)
(** * Further properties of the code *)
(* ================================================================== *)

(** ** Matching *)

(** X1.  [pattern.search(text)] succeeds exactly when some part of the text
    is matched by the pattern in full. *)
Theorem search_substring (p : Pattern) (s : string) :
  search p s = true
  <-> exists a b c, s = a +++ b +++ c /\ Matches (IGNORECASE p) (source p) b.
Proof. unfold search. apply search_from_Matches. Qed.

Lemma lower_space (c : ascii) : is_space (lower c) = is_space c.
Proof. destruct c as [[] [] [] [] [] [] [] []]; reflexivity. Qed.

Lemma lower_newline (c : ascii) :
  Ascii.eqb (lower c) "010" = Ascii.eqb c "010".
Proof. destruct c as [[] [] [] [] [] [] [] []]; reflexivity. Qed.

Lemma deriv_fold (a b : ascii) (r : regex) :
  Ascii.eqb (lower a) (lower b) = true -> deriv true a r = deriv true b r.
Proof.
  intros H. apply Ascii.eqb_eq in H.
  induction r as [| | p | | |r1 IH1 r2 IH2|r1 IH1 r2 IH2|r IH]; simpl;
    try reflexivity.
  - unfold chr_eqb. rewrite H. reflexivity.
  - rewrite <- (lower_newline a), <- (lower_newline b), H. reflexivity.
  - rewrite <- (lower_space a), <- (lower_space b), H. reflexivity.
  - rewrite IH1, IH2. reflexivity.
  - rewrite IH1, IH2. reflexivity.
  - rewrite IH. reflexivity.
Qed.

Lemma match_prefix_fold (r : regex) (s t : string) :
  same_fold s t = true -> match_prefix true r s = match_prefix true r t.
Proof.
  revert r t. induction s as [|a s IH]; intros r [|b t]; simpl;
    try discriminate; [reflexivity|].
  intros H. apply andb_true_iff in H. destruct H as [Hab Hst].
  rewrite (deriv_fold a b r Hab), (IH _ t Hst). reflexivity.
Qed.

Lemma search_from_fold (r : regex) (s t : string) :
  same_fold s t = true -> search_from true r s = search_from true r t.
Proof.
  revert t. induction s as [|a s IH]; intros [|b t]; try discriminate;
    [reflexivity|].
  intros H. cbn [search_from]. rewrite (match_prefix_fold r _ _ H).
  simpl in H. apply andb_true_iff in H. destruct H as [_ Hst].
  rewrite (IH t Hst). reflexivity.
Qed.

Lemma same_fold_refl (s : string) : same_fold s s = true.
Proof.
  induction s as [|a s IH]; simpl; [reflexivity|].
  rewrite Ascii.eqb_refl. exact IH.
Qed.

Lemma Matches_lit_fold (k w : string) :
  same_fold k w = true -> Matches true (lit k) w.
Proof.
  revert w. induction k as [|a k IH]; intros [|b w]; simpl;
    try discriminate.
  - intros _. constructor.
  - intros H. apply andb_true_iff in H. destruct H as [Hab Hkw].
    destruct k as [|a' k].
    + destruct w; [|discriminate]. constructor. exact Hab.
    + apply (MCat true (Chr a) (lit (String a' k))
               (String b EmptyString) w).
      * constructor. exact Hab.
      * apply IH. exact Hkw.
Qed.

Lemma Matches_alt_In (ic : bool) (r : regex) (rs : list regex) (w : string) :
  In r rs -> Matches ic r w -> Matches ic (alt rs) w.
Proof.
  induction rs as [|r0 rs IH]; intros Hin Hm; [destruct Hin|].
  destruct rs as [|r1 rs].
  - destruct Hin as [->|[]]. exact Hm.
  - destruct Hin as [->|Hin].
    + apply MAltL. exact Hm.
    + apply MAltR. apply IH; assumption.
Qed.

Section MoreCategorizeFacts.
Variable num_str : Q -> string.

Lemma first_match_cases (rules : rule_set) (s : string) :
  (exists before p after,
      rules = before ++ (first_match rules s, p) :: after
      /\ search p s = true
      /\ forall c q, In (c, q) before -> search q s = false)
  \/ (first_match rules s = "Other"
      /\ forall c q, In (c, q) rules -> search q s = false).
Proof.
  induction rules as [|[c0 p0] rules IH]; simpl.
  - right. split; [reflexivity|]. intros c q [].
  - destruct (search p0 s) eqn:E0.
    + left. exists [], p0, rules. split; [reflexivity|].
      split; [exact E0|]. intros c q [].
    + destruct IH as [(before & p & after & Heq & Hp & Hb)|[Ho Hnone]].
      * left. exists ((c0, p0) :: before), p, after.
        split; [simpl; rewrite <- Heq; reflexivity|].
        split; [exact Hp|].
        intros c q [H|H]; [inversion H; subst; exact E0|exact (Hb c q H)].
      * right. split; [exact Ho|].
        intros c q [H|H]; [inversion H; subst; exact E0|exact (Hnone c q H)].
Qed.

(** X2.  The label of a description that is present is the label of the
    first rule whose pattern matches its text; when no pattern matches, and
    only then can it be otherwise, the label is "Other". *)
Theorem categorize_transaction_cases (rules : rule_set) (description : cell) :
  isna description = false ->
  ((forall c q, In (c, q) rules ->
                search q (str num_str description) = false) ->
   categorize_transaction num_str rules description = "Other")
  /\ ((exists before p after,
          rules
          = before
            ++ (categorize_transaction num_str rules description, p) :: after
          /\ search p (str num_str description) = true
          /\ forall c q, In (c, q) before ->
                         search q (str num_str description) = false)
      \/ (categorize_transaction num_str rules description = "Other"
          /\ forall c q, In (c, q) rules ->
                         search q (str num_str description) = false)).
Proof.
  intros Hna. unfold categorize_transaction. rewrite Hna. split.
  - apply first_match_none.
  - apply first_match_cases.
Qed.

Lemma first_match_fold (rules : rule_set) (s t : string) :
  (forall c p, In (c, p) rules -> IGNORECASE p = true) ->
  same_fold s t = true ->
  first_match rules s = first_match rules t.
Proof.
  intros Hic Hst. induction rules as [|[c0 p0] rules IH]; simpl;
    [reflexivity|].
  unfold search. rewrite (Hic c0 p0) by (left; reflexivity).
  rewrite (search_from_fold _ s t Hst).
  rewrite IH; [reflexivity|].
  intros c p Hin. apply (Hic c p). right. exact Hin.
Qed.

(** X3.  With a rule set whose patterns are all compiled with IGNORECASE,
    two descriptions that differ only in the case of their letters get the
    same label. *)
Theorem categorize_transaction_ignores_case (rules : rule_set)
    (s t : string) :
  (forall c p, In (c, p) rules -> IGNORECASE p = true) ->
  same_fold s t = true ->
  categorize_transaction num_str rules (Str s)
  = categorize_transaction num_str rules (Str t).
Proof.
  intros Hic Hst. unfold categorize_transaction. simpl.
  apply first_match_fold; assumption.
Qed.

(** X4.  When a rule compiled with IGNORECASE lists a plain keyword among
    its alternatives, every description that contains the keyword, in any
    case of its letters and with anything around it, gets the label of
    that rule, unless a rule declared before it matches. *)
Theorem categorize_transaction_keyword (before : rule_set)
    (category : string) (alternatives : list regex) (after : rule_set)
    (keyword a w c : string) :
  In (lit keyword) alternatives ->
  same_fold keyword w = true ->
  (forall l q, In (l, q) before -> search q (a +++ w +++ c) = false) ->
  categorize_transaction num_str
    (before ++ (category, compile (alt alternatives) true) :: after)
    (Str (a +++ w +++ c))
  = category.
Proof.
  intros Hin Hfold Hbefore. unfold categorize_transaction. simpl.
  apply first_match_first; [exact Hbefore|].
  unfold search. apply search_from_Matches.
  exists a, w, c. split; [reflexivity|]. simpl.
  apply (Matches_alt_In true (lit keyword)); [exact Hin|].
  apply Matches_lit_fold. exact Hfold.
Qed.

End MoreCategorizeFacts.

Lemma CATEGORY_PATTERNS_ignore_case (c : string) (p : Pattern) :
  In (c, p) CATEGORY_PATTERNS -> IGNORECASE p = true.
Proof.
  intros H. repeat (destruct H as [H|H]; [inversion H; reflexivity|]).
  destruct H.
Qed.

Lemma categorize_transaction_cases_witness :
  categorize_transaction no_num_str CATEGORY_PATTERNS (Str "ATM WITHDRAWAL")
  = "Other".
Proof.
  apply (proj1 (categorize_transaction_cases no_num_str CATEGORY_PATTERNS
                  (Str "ATM WITHDRAWAL") eq_refl)).
  intros c q H.
  repeat (destruct H as [H|H]; [inversion H; vm_compute; reflexivity|]).
  destruct H.
Defined.

Lemma categorize_transaction_ignores_case_witness :
  categorize_transaction no_num_str CATEGORY_PATTERNS (Str "Netflix.com")
  = categorize_transaction no_num_str CATEGORY_PATTERNS (Str "NETFLIX.COM").
Proof.
  apply (categorize_transaction_ignores_case no_num_str CATEGORY_PATTERNS
           "Netflix.com" "NETFLIX.COM" CATEGORY_PATTERNS_ignore_case).
  reflexivity.
Defined.

Lemma categorize_transaction_keyword_witness :
  categorize_transaction no_num_str CATEGORY_PATTERNS
    (Str "STARBUCKS Paycheck ADVANCE")
  = "Income".
Proof.
  apply (categorize_transaction_keyword no_num_str []
           "Income"
           [lit "PAYCHECK"; lit "SALARY";
            seq [lit "DEPOSIT"; Star Dot; lit "EMPLOYER"];
            seq [lit "DD"; Star Space; lit "-"];
            seq [lit "DIRECT"; Star Space; lit "DEPOSIT"]]
           (skipn 1 CATEGORY_PATTERNS)
           "PAYCHECK" "STARBUCKS " "Paycheck" " ADVANCE").
  - left. reflexivity.
  - reflexivity.
  - intros l q [].
Defined.

(** ** Dates *)

Lemma digit_of_digit (n : nat) : digit_of (digit n) = Some (n mod 10).
Proof.
  unfold digit.
  assert (H : n mod 10 < 10) by (apply Nat.mod_upper_bound; lia).
  remember (n mod 10) as m eqn:Em. clear Em.
  do 10 (destruct m as [|m]; [reflexivity|]). lia.
Qed.

Lemma orelse_None_r {A : Type} (a : option A) : orelse a None = a.
Proof. destruct a; reflexivity. Qed.

Lemma four_digits (y : nat) :
  y < 10 * 1000 ->
  1000 * ((y / 1000) mod 10) + 100 * ((y / 100) mod 10)
  + 10 * ((y / 10) mod 10) + y mod 10
  = y.
Proof.
  intros H.
  replace (y / 1000) with (y / 10 / 10 / 10)
    by (rewrite !Nat.Div0.div_div; reflexivity).
  replace (y / 100) with (y / 10 / 10)
    by (rewrite !Nat.Div0.div_div; reflexivity).
  pose proof (Nat.div_mod_eq y 10).
  pose proof (Nat.div_mod_eq (y / 10) 10).
  pose proof (Nat.div_mod_eq (y / 10 / 10) 10).
  pose proof (Nat.div_mod_eq (y / 10 / 10 / 10) 10).
  pose proof (Nat.mod_upper_bound y 10).
  pose proof (Nat.mod_upper_bound (y / 10) 10).
  pose proof (Nat.mod_upper_bound (y / 10 / 10) 10).
  pose proof (Nat.mod_upper_bound (y / 10 / 10 / 10) 10).
  lia.
Qed.

Lemma parse_month (m : nat) (fmt : list directive) (rest : string)
    (acc : date) :
  1 <= m <= 12 ->
  parse_fields (dir_m :: dir_lit "/" :: fmt)
    (pad2 m +++ String "/" rest) acc
  = parse_fields fmt rest (mkdate (year acc) m (day acc)).
Proof.
  intros H.
  do 13 (destruct m as [|m];
         [try (exfalso; lia); cbn; apply orelse_None_r|]).
  exfalso; lia.
Qed.

Lemma parse_day (d : nat) (fmt : list directive) (rest : string)
    (acc : date) :
  1 <= d <= 31 ->
  parse_fields (dir_d :: dir_lit "/" :: fmt)
    (pad2 d +++ String "/" rest) acc
  = parse_fields fmt rest (mkdate (year acc) (month acc) d).
Proof.
  intros H.
  do 32 (destruct d as [|d];
         [try (exfalso; lia); cbn; apply orelse_None_r|]).
  exfalso; lia.
Qed.

Lemma parse_year (y : nat) (acc : date) :
  y < 10 * 1000 ->
  parse_fields [dir_Y] (pad4 y) acc
  = Some (mkdate y (month acc) (day acc)).
Proof.
  intros H. unfold pad4, pad2. cbn [parse_fields].
  rewrite !digit_of_digit. rewrite (four_digits y H). reflexivity.
Qed.

Lemma days_in_month_bound (y m : nat) : days_in_month y m <= 31.
Proof.
  unfold days_in_month.
  do 13 (destruct m as [|m]; [try lia; try (destruct (is_leap y); lia)|]).
  lia.
Qed.

Lemma digit_not_clock_text (n : nat) (rest : string) :
  is_clock_text (String (digit n) rest) = false.
Proof.
  unfold digit.
  assert (H : n mod 10 < 10) by (apply Nat.mod_upper_bound; lia).
  remember (n mod 10) as m eqn:Em. clear Em.
  do 10 (destruct m as [|m]; [reflexivity|]). lia.
Qed.

(** X5.  A day of the calendar, in the years 1678 to 2261 that every
    timestamp of pandas can hold, written the way [DATE_FORMAT] writes it
    (two digits for the month, two for the day, four for the year, with
    [/] between) is read back as the same day, at midnight, whatever the
    clock shows: such a text is never dropped as an invalid date. *)
Theorem to_datetime_round_trip (d : date) (reading : date * N) :
  valid_date d = true ->
  1678 <= year d <= 2261 ->
  strptime DATE_FORMAT (strftime DATE_FORMAT d) = Some d
  /\ to_datetime_value DATE_FORMAT reading (Str (strftime DATE_FORMAT d))
     = Timestamp d 0.
Proof.
  intros Hv Hrange.
  assert (Hy : year d < 10 * 1000) by lia.
  assert (Hp : strptime DATE_FORMAT (strftime DATE_FORMAT d) = Some d).
  { unfold valid_date in Hv. rewrite !andb_true_iff in Hv.
    destruct Hv as [[[[Hy1 Hm1] Hm12] Hd1] Hdn].
    apply Nat.leb_le in Hm1, Hm12, Hd1, Hdn.
    assert (Hd31 := days_in_month_bound (year d) (month d)).
    unfold strptime, DATE_FORMAT. cbn [strftime].
    change (String "/" (pad2 (day d) +++ String "/" (pad4 (year d) +++ "")))
      with (String "/" (pad2 (day d) +++ String "/" (pad4 (year d)))).
    rewrite parse_month by lia. rewrite parse_day by lia.
    rewrite parse_year by exact Hy. cbn [year month day].
    destruct d as [y m dd]. cbn [year month day] in *.
    unfold valid_date. cbn [year month day].
    rewrite Hy1. rewrite !(proj2 (Nat.leb_le _ _)) by assumption.
    reflexivity. }
  split; [exact Hp|]. unfold to_datetime_value. rewrite Hp.
  unfold DATE_FORMAT. cbn [strftime]. unfold pad2 at 1.
  cbn [String.append]. rewrite digit_not_clock_text. reflexivity.
Qed.

Lemma to_datetime_round_trip_witness :
  strptime DATE_FORMAT (strftime DATE_FORMAT (mkdate 2024 2 29))
  = Some (mkdate 2024 2 29).
Proof.
  apply (proj1 (to_datetime_round_trip (mkdate 2024 2 29) (wall_clock 0)
                  eq_refl ltac:(cbn; lia))).
Defined.

(** ** The pipeline: what it returns and what it raises *)

Lemma isna_sum_forallb {A : Type} (dt : dtype) (f : A -> cell)
    (xs : list A) :
  (isna_sum (mkSeries dt (map f xs)) =? 0)
  = forallb (fun x => notna (f x)) xs.
Proof.
  unfold isna_sum; cbn [values].
  induction xs as [|x xs IH]; [reflexivity|]. cbn [map filter forallb].
  unfold notna at 1. destruct (isna (f x)); [reflexivity|exact IH].
Qed.

Lemma apply_values_derive_raise (l : list cell) (e : exn) :
  apply_values (fun a => t <- derive_transaction_type a ;; Ok (Str t)) l
  = Raise e ->
  e = TypeError.
Proof.
  induction l as [|c l IH]; simpl; [discriminate|].
  destruct c as [|x|s|d t]; cbn.
  - destruct (apply_values _ l); cbn; [discriminate|]. exact IH.
  - destruct (Qlt_bool 0 x); [|destruct (Qlt_bool x 0)]; cbn;
      (destruct (apply_values _ l); cbn; [discriminate|exact IH]).
  - intros H; inversion H; reflexivity.
  - intros H; inversion H; reflexivity.
Qed.

Lemma derive_transaction_type_ok_cell (c : cell) (t : string) :
  derive_transaction_type c = Ok t -> cell_has_dtype numeric c = true.
Proof. destruct c; simpl; (reflexivity || discriminate). Qed.

Lemma filter_partition_length {A : Type} (p : A -> bool) (l : list A) :
  List.length (filter (fun x => negb (p x)) l) + List.length (filter p l)
  = List.length l.
Proof.
  induction l as [|x l IH]; simpl; [reflexivity|].
  destruct (p x); simpl; lia.
Qed.

Lemma keep_first_length (cols : list string) (earlier rs : list row) :
  List.length (keep_first cols earlier rs) <= List.length rs.
Proof.
  revert earlier. induction rs as [|r rs IH]; intros earlier; simpl; [lia|].
  specialize (IH (r :: earlier)).
  destruct (existsb (row_eqb cols r) earlier); simpl; lia.
Qed.

Lemma validate_raw_data_drop_duplicates (df : DataFrame) :
  validate_raw_data (drop_duplicates df) = validate_raw_data df.
Proof.
  unfold validate_raw_data, missing_columns, empty, drop_duplicates.
  cbn [columns rows]. destruct (rows df); reflexivity.
Qed.

Lemma to_datetime_value_cases (fmt : list directive) (reading : date * N)
    (c : cell) :
  to_datetime_value fmt reading c = NaN
  \/ exists d t, to_datetime_value fmt reading c = Timestamp d t.
Proof.
  destruct c as [|x|s|d t]; simpl; try (left; reflexivity).
  - destruct (is_clock_text s); [right; eexists; eexists; reflexivity|].
    destruct (strptime fmt s) as [d|];
      [right; exists d, 0%N|left]; reflexivity.
  - right. exists d, t. reflexivity.
Qed.

(** For a date other than [now] and [today] the clock is not looked at. *)
Lemma to_datetime_value_reading (fmt : list directive) (r1 r2 : date * N)
    (c : cell) :
  c <> Str "now" -> c <> Str "today" ->
  to_datetime_value fmt r1 c = to_datetime_value fmt r2 c.
Proof.
  intros Hnow Htoday. destruct c as [|x|s|d t]; simpl; try reflexivity.
  destruct (is_clock_text s) eqn:E; [|reflexivity].
  unfold is_clock_text in E. apply orb_true_iff in E.
  destruct E as [E|E]; apply String.eqb_eq in E; subst s;
    [elim Hnow|elim Htoday]; reflexivity.
Qed.

Lemma indexed_In_position {A : Type} (i : nat) (l : list A) (a : A) :
  In a l -> exists k, In (k, a) (indexed i l).
Proof.
  revert i. induction l as [|b l IH]; intros i H; [destruct H|].
  destruct H as [->|H].
  - exists i. left. reflexivity.
  - destruct (IH (S i) H) as [k Hk]. exists k. right. exact Hk.
Qed.

Section PipelineOutcome.
Variable num_str : Q -> string.
Variable rules : rule_set.
Variable fmt : list directive.
Variable clock : nat -> date * N.

Lemma validate_clean_data_records (dt_desc dt_amount : dtype)
    (irs : list (nat * row)) :
  (forall ir, In ir irs ->
     isna (date_dt fmt (clock (fst ir)) (snd ir)) = false
     /\ isna (type_cell (get "amount" (snd ir))) = false) ->
  validate_clean_data
    (mkDataFrame (clean_header dt_desc dt_amount)
                 (map (clean_record_at num_str rules fmt clock) irs))
  = if forallb (fun ir => notna (get "amount" (snd ir))) irs
    then match dt_amount with
         | numeric => Ok true
         | _ => Raise (ValueError (ValidationFailed "Amount is numeric"))
         end
    else Raise (ValueError (ValidationFailed "No nulls in amount")).
Proof.
  intros H.
  assert (Hall : forall f : nat * row -> cell,
             (forall ir, In ir irs -> isna (f ir) = false) ->
             forallb (fun ir => notna (f ir)) irs = true).
  { intros f Hf. apply forallb_forall. intros ir Hr. unfold notna.
    rewrite (Hf ir Hr). reflexivity. }
  unfold validate_clean_data, checks, getitem.
  cbn [columns rows clean_header lookup String.eqb Ascii.eqb Bool.eqb bind].
  rewrite !map_map.
  rewrite (isna_sum_forallb datetime64
             (fun ir => get "transaction_date"
                          (clean_record_at num_str rules fmt clock ir))).
  rewrite (isna_sum_forallb dt_amount
             (fun ir => get "amount"
                          (clean_record_at num_str rules fmt clock ir))).
  rewrite (isna_sum_forallb object
             (fun ir => get "category"
                          (clean_record_at num_str rules fmt clock ir))).
  rewrite (isna_sum_forallb object
             (fun ir => get "transaction_type"
                          (clean_record_at num_str rules fmt clock ir))).
  rewrite (Hall (fun ir => get "transaction_date"
                             (clean_record_at num_str rules fmt clock ir)))
    by (intros ir Hr; apply (H ir Hr)).
  rewrite (Hall (fun ir => get "category"
                             (clean_record_at num_str rules fmt clock ir)))
    by reflexivity.
  rewrite (Hall (fun ir => get "transaction_type"
                             (clean_record_at num_str rules fmt clock ir)))
    by (intros ir Hr; apply (H ir Hr)).
  change (fun ir => notna (get "amount"
                             (clean_record_at num_str rules fmt clock ir)))
    with (fun ir : nat * row => notna (get "amount" (snd ir))).
  cbn [run_checks].
  destruct (forallb (fun ir : nat * row => notna (get "amount" (snd ir)))
              irs);
    [|reflexivity].
  unfold is_datetime64_any_dtype, is_numeric_dtype. cbn [s_dtype].
  destruct dt_amount; reflexivity.
Qed.

(** The pipeline past the raw gate, in one expression. *)
Lemma clean_transaction_data_closed (df : DataFrame)
    (dt_desc dt_amount : dtype) :
  validate_raw_data df = Ok tt ->
  lookup "description" (columns df) = Some dt_desc ->
  lookup "amount" (columns df) = Some dt_amount ->
  clean_transaction_data num_str rules fmt clock df
  = (apply_values (fun a => t <- derive_transaction_type a ;; Ok (Str t))
       (map (get "amount") (rows (drop_duplicates df))) ;;;
     if forallb (fun ir => notna (get "amount" (snd ir)))
          (survivors fmt clock df)
     then match dt_amount with
          | numeric =>
              Ok (mkOutcome
                    (mkDataFrame (clean_header dt_desc dt_amount)
                       (map (clean_record_at num_str rules fmt clock)
                          (survivors fmt clock df)))
                    (len df - len (drop_duplicates df))
                    (List.length (dropped fmt clock df)))
          | _ => Raise (ValueError (ValidationFailed "Amount is numeric"))
          end
     else Raise (ValueError (ValidationFailed "No nulls in amount"))).
Proof.
  intros Hraw Hdesc Hamt.
  rewrite (clean_transaction_data_rowwise num_str rules fmt clock df
             dt_desc dt_amount Hraw Hdesc Hamt).
  destruct (apply_values _ _) as [vs|e] eqn:Ea; cbn [bind]; [|reflexivity].
  cbv zeta. rewrite validate_clean_data_records.
  - destruct (forallb _ (survivors fmt clock df)); [|reflexivity].
    destruct dt_amount; reflexivity.
  - intros ir Hr. unfold survivors in Hr. apply filter_In in Hr.
    destruct Hr as [Hr Hd]. unfold notna in Hd. apply negb_true_iff in Hd.
    split; [exact Hd|].
    destruct (apply_values_ok _ _ _ Ea (get "amount" (snd ir))) as [v Hv].
    { apply in_map. exact (indexed_In _ _ _ Hr). }
    unfold type_cell.
    destruct (derive_transaction_type (get "amount" (snd ir)));
      [reflexivity|discriminate Hv].
Qed.

(** X6.  The errors of the pipeline: the two of the raw gate, [TypeError]
    from an amount that is not a number, and the two checks of the clean
    gate that look at the amount column.  It raises no [KeyError], no
    [AttributeError] and none of the other four checks of the clean gate:
    past the raw gate every column it reads exists, and it fills the date,
    the category and the transaction type of every row it keeps. *)
Theorem clean_transaction_data_errors (df : DataFrame) (e : exn) :
  clean_transaction_data num_str rules fmt clock df = Raise e ->
  e = ValueError (MissingRequiredColumns (missing_columns df))
  \/ e = ValueError DataFrameIsEmpty
  \/ e = TypeError
  \/ e = ValueError (ValidationFailed "No nulls in amount")
  \/ e = ValueError (ValidationFailed "Amount is numeric").
Proof.
  intros H.
  destruct (validate_raw_data df) as [[]|e0] eqn:Hraw.
  - destruct (validate_raw_data_ok df Hraw) as [Hcols _].
    destruct (Hcols "description") as [dt_desc Hdesc]; [simpl; tauto|].
    destruct (Hcols "amount") as [dt_amount Hamt]; [simpl; tauto|].
    rewrite (clean_transaction_data_closed df dt_desc dt_amount
               Hraw Hdesc Hamt) in H.
    destruct (apply_values _ _) as [vs|e1] eqn:Ea; cbn [bind] in H.
    + destruct (forallb _ _); [destruct dt_amount|];
        inversion H; tauto.
    + inversion H; subst. right; right; left.
      exact (apply_values_derive_raise _ _ Ea).
  - unfold clean_transaction_data in H. rewrite Hraw in H. cbn [bind] in H.
    inversion H; subst. unfold validate_raw_data in Hraw.
    destruct (missing_columns df); [|inversion Hraw; tauto].
    destruct (empty df); inversion Hraw; tauto.
Qed.

(** X7.  One kept row without an amount rejects the whole file: when the
    amounts are numbers or missing and a row left after deduplication has a
    date that becomes a timestamp (whatever the clock shows) and no amount,
    the pipeline raises the validation error "No nulls in amount" and
    returns no row at all. *)
Theorem clean_transaction_data_missing_amount (df : DataFrame) (r : row)
    (reading : date * N) :
  validate_raw_data df = Ok tt ->
  (forall r', In r' (rows (drop_duplicates df)) ->
              cell_has_dtype numeric (get "amount" r') = true) ->
  In r (rows (drop_duplicates df)) ->
  isna (date_dt fmt reading r) = false ->
  isna (get "amount" r) = true ->
  clean_transaction_data num_str rules fmt clock df
  = Raise (ValueError (ValidationFailed "No nulls in amount")).
Proof.
  intros Hraw Hnum Hr Hd Ha.
  destruct (validate_raw_data_ok df Hraw) as [Hcols _].
  destruct (Hcols "description") as [dt_desc Hdesc]; [simpl; tauto|].
  destruct (Hcols "amount") as [dt_amount Hamt]; [simpl; tauto|].
  rewrite (clean_transaction_data_closed df dt_desc dt_amount
             Hraw Hdesc Hamt).
  rewrite (apply_values_total _ type_cell).
  2:{ intros c Hin. apply in_map_iff in Hin. destruct Hin as (r' & <- & Hr').
      destruct (derive_transaction_type_numeric _ (Hnum r' Hr')) as [t Ht].
      unfold type_cell. rewrite Ht. reflexivity. }
  cbn [bind].
  destruct (forallb _ (survivors fmt clock df)) eqn:E; [|reflexivity].
  rewrite forallb_forall in E.
  destruct (indexed_In_position 0 _ _ Hr) as [k Hk].
  assert (Hs : In (k, r) (survivors fmt clock df)).
  { unfold survivors. apply filter_In. split; [exact Hk|].
    unfold notna. cbn [fst snd].
    rewrite (isna_date_dt_reading fmt (clock k) reading), Hd. reflexivity. }
  specialize (E (k, r) Hs). unfold notna in E. cbn [snd] in E.
  rewrite Ha in E. discriminate E.
Qed.

(** X8.  Every row of the input is accounted for: when the pipeline
    returns, the rows of the clean frame, the rows dropped for their date
    and the rows removed as duplicates add up to the rows of the input. *)
Theorem clean_transaction_data_row_count (df : DataFrame) (out : outcome) :
  clean_transaction_data num_str rules fmt clock df = Ok out ->
  len (clean_df out) + invalid_dates out + duplicates_removed out = len df.
Proof.
  intros H.
  destruct (clean_transaction_data_ok_rows num_str rules fmt clock df out H)
    as (Hrows & Hdup & Hinv).
  unfold len at 1. rewrite Hrows, Hdup, Hinv, length_map.
  unfold survivors, dropped, notna.
  assert (Hle : len (drop_duplicates df) <= len df).
  { unfold len, drop_duplicates. cbn [rows]. apply keep_first_length. }
  assert (Hp := filter_partition_length
                  (fun ir : nat * row =>
                     isna (date_dt fmt (clock (fst ir)) (snd ir)))
                  (indexed 0 (rows (drop_duplicates df)))).
  rewrite indexed_length in Hp.
  unfold len in *. lia.
Qed.

(** X9.  What a returned frame holds.  Its columns are transaction_date,
    transaction_desc, category, transaction_type, amount and month_year, in
    this order.  In each of its records the date is a timestamp, the amount
    is a number, the transaction type is the label of the sign of that
    number (so never "Unknown"), the category is a label of the rule set or
    "Other", and month_year is the year and the month of the date. *)
Theorem clean_transaction_data_records (df : DataFrame) (out : outcome) :
  clean_transaction_data num_str rules fmt clock df = Ok out ->
  map fst (columns (clean_df out))
  = [ "transaction_date"; "transaction_desc"; "category";
      "transaction_type"; "amount"; "month_year" ]
  /\ forall rec, In rec (rows (clean_df out)) ->
       exists d time desc category label x,
         rec = [ ("transaction_date", Timestamp d time);
                 ("transaction_desc", desc);
                 ("category", Str category);
                 ("transaction_type", Str label);
                 ("amount", Num x);
                 ("month_year",
                  Str (pad4 (year d) +++ "-" +++ pad2 (month d))) ]
         /\ derive_transaction_type (Num x) = Ok label
         /\ In label ["Credit"; "Debit"; "Neutral"]
         /\ (In category (map fst rules) \/ category = "Other").
Proof.
  intros H.
  assert (Hraw : validate_raw_data df = Ok tt).
  { unfold clean_transaction_data in H.
    destruct (validate_raw_data df) as [[]|e]; [reflexivity|discriminate H]. }
  destruct (validate_raw_data_ok df Hraw) as [Hcols _].
  destruct (Hcols "description") as [dt_desc Hdesc]; [simpl; tauto|].
  destruct (Hcols "amount") as [dt_amount Hamt]; [simpl; tauto|].
  rewrite (clean_transaction_data_closed df dt_desc dt_amount
             Hraw Hdesc Hamt) in H.
  destruct (apply_values _ _) as [vs|e1] eqn:Ea; cbn [bind] in H;
    [|discriminate H].
  destruct (forallb _ (survivors fmt clock df)) eqn:Eall; [|discriminate H].
  destruct dt_amount; [|discriminate H..].
  injection H as <-. cbn [clean_df columns rows]. split; [reflexivity|].
  intros rec Hrec. apply in_map_iff in Hrec.
  destruct Hrec as ([i r] & <- & Hr).
  rewrite forallb_forall in Eall. assert (Ha := Eall (i, r) Hr).
  cbn [snd] in Ha.
  unfold survivors in Hr. apply filter_In in Hr. destruct Hr as [Hr Hd].
  cbn [fst snd] in Hd.
  destruct (apply_values_ok _ _ _ Ea (get "amount" r)) as [v Hv].
  { apply in_map. exact (indexed_In _ _ _ Hr). }
  unfold clean_record_at, clean_record, type_cell. cbn [fst snd].
  unfold notna in Hd. apply negb_true_iff in Hd.
  destruct (to_datetime_value_cases fmt (clock i) (get "date" r))
    as [Ed|[d [t Ed]]];
    fold (date_dt fmt (clock i) r) in Ed; rewrite Ed in Hd |- *;
    [discriminate Hd|].
  destruct (get "amount" r) as [|x|s|d' t'] eqn:Eamt;
    [discriminate Ha| |discriminate Hv|discriminate Hv].
  destruct (derive_transaction_type (Num x)) as [label|] eqn:El;
    [|discriminate Hv].
  exists d, t, (get "description" r),
    (categorize_transaction num_str rules (get "description" r)), label, x.
  split; [reflexivity|]. split; [exact El|]. split.
  - unfold derive_transaction_type in El. cbn in El.
    destruct (Qlt_bool 0 x); [|destruct (Qlt_bool x 0)];
      inversion El; simpl; tauto.
  - unfold categorize_transaction.
    destruct (isna (get "description" r)); [right; reflexivity|].
    apply first_match_label.
Qed.

(** X10.  Deduplicating the input beforehand changes nothing but the
    count of duplicates the pipeline reports: the same error, or the same
    clean frame and the same count of invalid dates (with the same
    readings of the clock). *)
Theorem clean_transaction_data_after_drop_duplicates (df : DataFrame) :
  clean_transaction_data num_str rules fmt clock (drop_duplicates df)
  = match clean_transaction_data num_str rules fmt clock df with
    | Ok out => Ok (mkOutcome (clean_df out) 0 (invalid_dates out))
    | Raise e => Raise e
    end.
Proof.
  destruct (validate_raw_data df) as [[]|e0] eqn:Hraw.
  - assert (Hraw' := Hraw).
    rewrite <- validate_raw_data_drop_duplicates in Hraw'.
    destruct (validate_raw_data_ok df Hraw) as [Hcols _].
    destruct (Hcols "description") as [dt_desc Hdesc]; [simpl; tauto|].
    destruct (Hcols "amount") as [dt_amount Hamt]; [simpl; tauto|].
    rewrite (clean_transaction_data_closed df dt_desc dt_amount
               Hraw Hdesc Hamt).
    rewrite (clean_transaction_data_closed (drop_duplicates df)
               dt_desc dt_amount Hraw' Hdesc Hamt).
    unfold survivors, dropped. rewrite drop_duplicates_idempotent.
    rewrite Nat.sub_diag.
    destruct (apply_values _ _); cbn [bind]; [|reflexivity].
    destruct (forallb _ _); [|reflexivity].
    destruct dt_amount; reflexivity.
  - unfold clean_transaction_data.
    rewrite validate_raw_data_drop_duplicates, Hraw. reflexivity.
Qed.

(** X11.  Duplicates are removed on the columns of the input, before the
    category is computed: two rows with the same date, description and
    amount that differ elsewhere (in the category of the input, say) are
    both kept, and give two records in the clean frame that are equal,
    unless the date is [now] or [today], for which the clock is read once
    for each row. *)
Theorem clean_transaction_data_equal_records (df : DataFrame)
    (r1 r2 : row) (out : outcome) :
  rows df = [r1; r2] ->
  row_eqb (map fst (columns df)) r2 r1 = false ->
  get "date" r1 = get "date" r2 ->
  get "description" r1 = get "description" r2 ->
  get "amount" r1 = get "amount" r2 ->
  isna (date_dt fmt (clock 0) r1) = false ->
  clean_transaction_data num_str rules fmt clock df = Ok out ->
  rows (clean_df out)
  = [ clean_record num_str rules fmt (clock 0) r1;
      clean_record num_str rules fmt (clock 1) r1 ]
  /\ duplicates_removed out = 0
  /\ (get "date" r1 <> Str "now" -> get "date" r1 <> Str "today" ->
      rows (clean_df out)
      = [ clean_record num_str rules fmt (clock 0) r1;
          clean_record num_str rules fmt (clock 0) r1 ]).
Proof.
  intros Hrows Hne Hdate Hdesc Hamt Hd H.
  destruct (clean_transaction_data_ok_rows num_str rules fmt clock df out H)
    as (Hout & Hdup & _).
  assert (Hdd : rows (drop_duplicates df) = [r1; r2]).
  { unfold drop_duplicates. cbn [rows]. rewrite Hrows. cbn.
    rewrite Hne. reflexivity. }
  assert (Hrec : rows (clean_df out)
                 = [ clean_record num_str rules fmt (clock 0) r1;
                     clean_record num_str rules fmt (clock 1) r1 ]).
  { rewrite Hout. unfold survivors. rewrite Hdd. cbn [indexed filter fst snd].
    assert (Hd2 : isna (date_dt fmt (clock 1) r2) = false).
    { rewrite <- Hd. unfold date_dt. rewrite <- Hdate.
      apply to_datetime_value_eqb, cell_eqb_refl. }
    unfold notna. rewrite Hd, Hd2. cbn [negb map].
    unfold clean_record_at, clean_record, date_dt. cbn [fst snd].
    rewrite <- Hdate, <- Hdesc, <- Hamt. reflexivity. }
  split; [exact Hrec|]. split.
  - rewrite Hdup. unfold len. rewrite Hdd, Hrows. reflexivity.
  - intros Hnow Htoday. rewrite Hrec. unfold clean_record, date_dt.
    rewrite (to_datetime_value_reading fmt (clock 1) (clock 0) _ Hnow Htoday).
    reflexivity.
Qed.

End PipelineOutcome.

Lemma clean_transaction_data_errors_witness :
  TypeError = ValueError (MissingRequiredColumns (missing_columns text_amounts))
  \/ TypeError = ValueError DataFrameIsEmpty
  \/ TypeError = TypeError
  \/ TypeError = ValueError (ValidationFailed "No nulls in amount")
  \/ TypeError = ValueError (ValidationFailed "Amount is numeric").
Proof.
  apply (clean_transaction_data_errors no_num_str CATEGORY_PATTERNS
           DATE_FORMAT wall_clock text_amounts).
  reflexivity.
Defined.

Lemma clean_transaction_data_missing_amount_witness :
  clean_transaction_data no_num_str CATEGORY_PATTERNS DATE_FORMAT
    wall_clock amount_missing
  = Raise (ValueError (ValidationFailed "No nulls in amount")).
Proof.
  apply (clean_transaction_data_missing_amount no_num_str CATEGORY_PATTERNS
           DATE_FORMAT wall_clock amount_missing
           (csv_row "01/06/2024" "NETFLIX.COM" NaN) (wall_clock 1)).
  - reflexivity.
  - intros r' [<-|[<-|[]]]; reflexivity.
  - right. left. reflexivity.
  - reflexivity.
  - reflexivity.
Defined.

Lemma clean_transaction_data_row_count_witness :
  exists out,
    clean_transaction_data no_num_str CATEGORY_PATTERNS DATE_FORMAT
      wall_clock scenario_E = Ok out
    /\ len (clean_df out) + invalid_dates out + duplicates_removed out = 3.
Proof.
  eexists. split; [vm_compute; reflexivity|].
  apply (clean_transaction_data_row_count no_num_str CATEGORY_PATTERNS
           DATE_FORMAT wall_clock scenario_E).
  vm_compute. reflexivity.
Defined.

Lemma clean_transaction_data_records_witness :
  exists out,
    clean_transaction_data no_num_str CATEGORY_PATTERNS DATE_FORMAT
      wall_clock scenario_E = Ok out
    /\ map fst (columns (clean_df out))
       = [ "transaction_date"; "transaction_desc"; "category";
           "transaction_type"; "amount"; "month_year" ].
Proof.
  eexists. split; [vm_compute; reflexivity|].
  apply (proj1 (clean_transaction_data_records no_num_str CATEGORY_PATTERNS
                  DATE_FORMAT wall_clock scenario_E _
                  ltac:(vm_compute; reflexivity))).
Defined.

Lemma clean_transaction_data_equal_records_witness :
  exists out,
    clean_transaction_data no_num_str CATEGORY_PATTERNS DATE_FORMAT
      wall_clock twice_with_two_categories = Ok out
    /\ rows (clean_df out)
       = [ clean_record no_num_str CATEGORY_PATTERNS DATE_FORMAT
             (wall_clock 0) starbucks;
           clean_record no_num_str CATEGORY_PATTERNS DATE_FORMAT
             (wall_clock 0) starbucks ]
    /\ duplicates_removed out = 0.
Proof.
  eexists. split; [vm_compute; reflexivity|].
  destruct (clean_transaction_data_equal_records no_num_str
              CATEGORY_PATTERNS DATE_FORMAT wall_clock
              twice_with_two_categories starbucks
              (nth 1 (rows twice_with_two_categories) []) _
              eq_refl eq_refl eq_refl eq_refl eq_refl eq_refl
              ltac:(vm_compute; reflexivity))
    as (_ & Hdup & Hsame).
  split; [|exact Hdup].
  apply Hsame; discriminate.
Defined.

(** ** Dates read from the clock *)

Lemma nth_error_indexed {A : Type} (k i : nat) (l : list A) (a : A) :
  nth_error l i = Some a -> In (k + i, a) (indexed k l).
Proof.
  revert k i. induction l as [|b l IH]; intros k i H.
  - destruct i; discriminate H.
  - destruct i as [|i]; cbn [nth_error indexed] in *.
    + injection H as ->. left. rewrite Nat.add_0_r. reflexivity.
    + right. replace (k + S i) with (S k + i) by lia. exact (IH _ _ H).
Qed.

Section ClockDates.
Variable num_str : Q -> string.
Variable rules : rule_set.
Variable fmt : list directive.
Variable clock : nat -> date * N.

(** X19.  A row dated [now] or [today] is not dropped as an invalid date,
    whatever the format is: when the pipeline returns, the record of such
    a row (the row at position [i] after deduplication) is in the clean
    frame, its date is what the clock showed when the row was converted,
    with the time of day, and its month_year is the year and the month of
    that day. *)
Theorem clean_transaction_data_clock_dates (df : DataFrame) (out : outcome)
    (i : nat) (r : row) :
  clean_transaction_data num_str rules fmt clock df = Ok out ->
  nth_error (rows (drop_duplicates df)) i = Some r ->
  get "date" r = Str "now" \/ get "date" r = Str "today" ->
  exists rec,
    In rec (rows (clean_df out))
    /\ get "transaction_date" rec
       = Timestamp (fst (clock i)) (snd (clock i))
    /\ get "transaction_desc" rec = get "description" r
    /\ get "amount" rec = get "amount" r
    /\ get "month_year" rec
       = Str (pad4 (year (fst (clock i))) +++ "-"
              +++ pad2 (month (fst (clock i)))).
Proof.
  intros H Hi Hdate.
  destruct (clean_transaction_data_ok_rows num_str rules fmt clock df out H)
    as (Hrows & _).
  assert (Hd : date_dt fmt (clock i) r
               = Timestamp (fst (clock i)) (snd (clock i)))
    by (unfold date_dt; destruct Hdate as [-> | ->]; reflexivity).
  exists (clean_record_at num_str rules fmt clock (i, r)).
  split; [|unfold clean_record_at, clean_record; cbn [fst snd];
           rewrite Hd; repeat split].
  rewrite Hrows. apply in_map. unfold survivors. apply filter_In.
  split; [exact (nth_error_indexed 0 i _ r Hi)|].
  cbn [fst snd]. rewrite Hd. reflexivity.
Qed.
End ClockDates.

Lemma clean_transaction_data_clock_dates_witness :
  exists out rec,
    clean_transaction_data no_num_str CATEGORY_PATTERNS DATE_FORMAT
      wall_clock dated_today = Ok out
    /\ invalid_dates out = 0
    /\ In rec (rows (clean_df out))
    /\ get "transaction_date" rec
       = Timestamp (mkdate 2024 1 5) 32587000001000
    /\ get "transaction_desc" rec = Str "NETFLIX.COM"
    /\ get "month_year" rec = Str "2024-01".
Proof.
  eexists.
  destruct (clean_transaction_data_clock_dates no_num_str CATEGORY_PATTERNS
              DATE_FORMAT wall_clock dated_today _ 1
              (csv_row "today" "NETFLIX.COM" (Num (-1599 # 100)))
              ltac:(vm_compute; reflexivity) eq_refl
              ltac:(right; reflexivity))
    as (rec & Hin & Hdate & Hdesc & _ & Hmonth).
  exists rec. split; [reflexivity|]. split; [reflexivity|].
  split; [exact Hin|]. split; [exact Hdate|]. split; [exact Hdesc|].
  exact Hmonth.
Defined.

(** ** Deduplication: what is kept *)

Lemma keep_first_not_earlier (cols : list string) (earlier rs : list row)
    (k : row) :
  In k (keep_first cols earlier rs) ->
  existsb (row_eqb cols k) earlier = false.
Proof.
  revert earlier. induction rs as [|r rs IH]; intros earlier Hin;
    [destruct Hin|].
  simpl in Hin.
  assert (Hrest : In k (keep_first cols (r :: earlier) rs) ->
                  existsb (row_eqb cols k) earlier = false).
  { intros H. specialize (IH _ H). simpl in IH.
    apply orb_false_iff in IH. apply IH. }
  destruct (existsb (row_eqb cols r) earlier) eqn:E.
  - exact (Hrest Hin).
  - destruct Hin as [<-|Hin]; [exact E|exact (Hrest Hin)].
Qed.

Lemma keep_first_later_differs (cols : list string)
    (earlier rs a b c : list row) (r r' : row) :
  keep_first cols earlier rs = a ++ r :: b ++ r' :: c ->
  row_eqb cols r' r = false.
Proof.
  revert earlier a. induction rs as [|r0 rs IH]; intros earlier a H.
  - destruct a; discriminate H.
  - simpl in H. destruct (existsb (row_eqb cols r0) earlier).
    + exact (IH _ _ H).
    + destruct a as [|x a]; simpl in H.
      * injection H as -> H.
        assert (Hin : In r' (keep_first cols (r :: earlier) rs)).
        { rewrite H. apply in_or_app. right. left. reflexivity. }
        apply keep_first_not_earlier in Hin. simpl in Hin.
        apply orb_false_iff in Hin. apply Hin.
      * injection H as _ H. exact (IH _ _ H).
Qed.

(** X12.  After [drop_duplicates] no two rows of the frame agree on every
    column, and every row of the input still has a row that agrees with it
    on every column. *)
Theorem drop_duplicates_distinct (df : DataFrame) :
  (forall a r b r' c,
      rows (drop_duplicates df) = a ++ r :: b ++ r' :: c ->
      row_eqb (map fst (columns df)) r' r = false)
  /\ (forall x, In x (rows df) ->
                exists k, In k (rows (drop_duplicates df))
                          /\ row_eqb (map fst (columns df)) x k = true).
Proof.
  split.
  - intros a r b r' c H. unfold drop_duplicates in H. cbn [rows] in H.
    exact (keep_first_later_differs _ _ _ _ _ _ _ _ H).
  - intros x Hx. unfold drop_duplicates. cbn [rows].
    destruct (keep_first_represents (map fst (columns df)) [] (rows df) x Hx)
      as [Hk|(e & [] & _)].
    exact Hk.
Qed.

Lemma drop_duplicates_distinct_witness :
  row_eqb (map fst (columns scenario_E))
    (csv_row "01/07/2024" "PAYCHECK ACME" (Num (2500 # 1))) starbucks
  = false.
Proof.
  apply (proj1 (drop_duplicates_distinct scenario_E)
           [] starbucks
           [csv_row "2024-01-06" "NETFLIX.COM" (Num (-1599 # 100))]
           (csv_row "01/07/2024" "PAYCHECK ACME" (Num (2500 # 1))) []).
  reflexivity.
Defined.

(** ** The clean gate on a frame without its columns *)

(** X13.  The clean gate reads the columns transaction_date, amount,
    category and transaction_type before it runs any check: on a frame
    that lacks one of them it raises [KeyError] for the first one missing
    in this order, whatever the rows hold. *)
Theorem validate_clean_data_missing_column (df : DataFrame)
    (before : list string) (k : string) (after : list string) :
  ["transaction_date"; "amount"; "category"; "transaction_type"]
  = before ++ k :: after ->
  (forall c, In c before -> has_key c (columns df) = true) ->
  lookup k (columns df) = None ->
  validate_clean_data df = Raise (KeyError k).
Proof.
  intros Hsplit Hbefore Hk.
  assert (Hsome : forall c, In c before ->
                            exists dt, lookup c (columns df) = Some dt).
  { intros c Hc. specialize (Hbefore c Hc). unfold has_key in Hbefore.
    destruct (lookup c (columns df)) as [dt|]; [exists dt; reflexivity|].
    discriminate Hbefore. }
  unfold validate_clean_data, checks, getitem.
  destruct before as [|b1 before]; simpl in Hsplit.
  { injection Hsplit as <- _. rewrite Hk. reflexivity. }
  injection Hsplit as <- Hsplit.
  destruct (Hsome "transaction_date") as [dt1 ->]; [left; reflexivity|].
  cbn [bind].
  destruct before as [|b2 before]; simpl in Hsplit.
  { injection Hsplit as <- _. rewrite Hk. reflexivity. }
  injection Hsplit as <- Hsplit.
  destruct (Hsome "amount") as [dt2 ->]; [right; left; reflexivity|].
  cbn [bind].
  destruct before as [|b3 before]; simpl in Hsplit.
  { injection Hsplit as <- _. rewrite Hk. reflexivity. }
  injection Hsplit as <- Hsplit.
  destruct (Hsome "category") as [dt3 ->];
    [right; right; left; reflexivity|].
  cbn [bind].
  destruct before as [|b4 before]; simpl in Hsplit.
  { injection Hsplit as <- _. rewrite Hk. reflexivity. }
  injection Hsplit as _ Hsplit. destruct before; discriminate Hsplit.
Qed.

Lemma validate_clean_data_missing_column_witness :
  validate_clean_data dates_only = Raise (KeyError "amount").
Proof.
  apply (validate_clean_data_missing_column dates_only
           ["transaction_date"] "amount" ["category"; "transaction_type"]).
  - reflexivity.
  - intros c [<-|[]]. reflexivity.
  - reflexivity.
Defined.

(** ** File routing: the other routes *)

Lemma stamped_path_fresh (folder : string) (now : datetime)
    (filepath : string) :
  filepath
  <> join folder (strftime_stamp now +++ "_" +++ basename filepath).
Proof.
  intros Heq.
  assert (H : basename filepath
              = basename (join folder (strftime_stamp now +++ "_"
                                       +++ basename filepath)))
    by (rewrite <- Heq; reflexivity).
  rewrite basename_join in H.
  - apply (f_equal String.length) in H. rewrite !length_append in H.
    rewrite length_stamp in H. simpl in H. lia.
  - rewrite !has_slash_append, has_slash_stamp, has_slash_basename.
    reflexivity.
Qed.


Lemma prefix_refl (s : string) : String.prefix s s = true.
Proof.
  induction s as [|c s IH]; simpl; [reflexivity|].
  destruct (ascii_dec c c); [exact IH|contradiction].
Qed.














Section MoreHandlerFacts.
Variable num_str : Q -> string.
Variable PROCESSED_FOLDER FAILED_FOLDER : string.
Variable read_csv : string -> run DataFrame.
Variable insert_transactions : DataFrame -> run nat.
Variable clock : nat -> date * N.
Variable set_order : list string -> list string.
Variable on_disk : string -> bool.

(** X14.  The success route.  When the file is read, the pipeline returns
    and the insert completes, [process_file] moves the source file into
    the processed folder under its name prefixed with the timestamp and
    [_], with its text unchanged; it writes no other file and changes no
    other file. *)
Theorem process_file_success_route (now : datetime) (filepath : string)
    (fs : files) (text : string) (df : DataFrame) (out : outcome)
    (rows_inserted : nat) :
  lookup filepath fs = Some text ->
  read_csv text = Done df ->
  clean_transaction_data num_str CATEGORY_PATTERNS DATE_FORMAT clock df
  = Ok out ->
  insert_transactions (clean_df out) = Done rows_inserted ->
  let new_path :=
    join PROCESSED_FOLDER
      (strftime_stamp now +++ "_" +++ basename filepath) in
  exists fs',
    process_file num_str PROCESSED_FOLDER FAILED_FOLDER read_csv
      insert_transactions clock set_order on_disk now filepath fs
    = Done fs'
    /\ lookup filepath fs' = None
    /\ lookup new_path fs' = Some text
    /\ (forall p, p <> filepath -> p <> new_path ->
                  lookup p fs' = lookup p fs).
Proof.
  intros Hsrc Hread Hclean Hins new_path.
  assert (Hne := stamped_path_fresh PROCESSED_FOLDER now filepath).
  fold new_path in Hne.
  exists (assign new_path text (remove filepath fs)).
  split; [|split; [|split]].
  - unfold process_file, try_block. cbv zeta.
    rewrite Hsrc, Hread, Hclean, Hins.
    unfold move_to_processed, shutil_move. rewrite Hsrc. reflexivity.
  - rewrite lookup_assign, lookup_remove.
    apply String.eqb_neq in Hne. rewrite Hne, String.eqb_refl. reflexivity.
  - rewrite lookup_assign, String.eqb_refl. reflexivity.
  - intros p Hp1 Hp2. rewrite lookup_assign, lookup_remove.
    apply String.eqb_neq in Hp1, Hp2. rewrite Hp1, Hp2. reflexivity.
Qed.


End MoreHandlerFacts.

Import database.

Lemma survivors_none (fmt : list directive) (clock : nat -> date * N)
    (df : DataFrame) :
  (forall r reading, In r (rows df) -> isna (date_dt fmt reading r) = true) ->
  survivors fmt clock df = [].
Proof.
  intros Hbad. unfold survivors.
  assert (Hl : forall ir, In ir (indexed 0 (rows (drop_duplicates df))) ->
                 isna (date_dt fmt (clock (fst ir)) (snd ir)) = true).
  { intros ir Hr. apply Hbad, drop_duplicates_rows_incl.
    exact (indexed_In _ _ _ Hr). }
  induction (indexed 0 (rows (drop_duplicates df))) as [|ir l IH];
    [reflexivity|].
  cbn [filter]. unfold notna at 1.
  rewrite (Hl ir) by (left; reflexivity). cbn [negb].
  apply IH. intros ir' Hr'. apply Hl. right; exact Hr'.
Qed.

Section EmptyBatch.
Variable num_str : Q -> string.
Variable PROCESSED_FOLDER FAILED_FOLDER : string.
Variable read_csv : string -> run DataFrame.
Variable execute_insert : DataFrame -> run nat.
Variable clock : nat -> date * N.
Variable set_order : list string -> list string.
Variable on_disk : string -> bool.

(** X17.  A file in which the date of every row becomes NaT (no date
    matches the format, none is [now] or [today]) is a success without any
    use of the database: the pipeline returns a frame of zero rows, the
    guard of [insert_transactions] answers 0 for it before a connection is
    opened, and the source file goes to the processed folder; this holds
    whatever the database would have answered, also when it cannot be
    reached. *)
Theorem process_file_empty_batch (now : datetime) (filepath : string)
    (fs : files) (text : string) (df : DataFrame) :
  lookup filepath fs = Some text ->
  read_csv text = Done df ->
  validate_raw_data df = Ok tt ->
  lookup "amount" (columns df) = Some numeric ->
  (forall r, In r (rows df) ->
             cell_has_dtype numeric (get "amount" r) = true) ->
  (forall r reading,
     In r (rows df) -> isna (date_dt DATE_FORMAT reading r) = true) ->
  process_file num_str PROCESSED_FOLDER FAILED_FOLDER read_csv
    (insert_transactions execute_insert) clock set_order on_disk
    now filepath fs
  = Done (assign
            (join PROCESSED_FOLDER
               (strftime_stamp now +++ "_" +++ basename filepath))
            text (remove filepath fs)).
Proof.
  intros Hsrc Hread Hraw Hamt Htyped Hbad.
  destruct (validate_raw_data_ok df Hraw) as [Hcols _].
  destruct (Hcols "description") as [dt_desc Hdesc]; [simpl; tauto|].
  assert (Hs := survivors_none DATE_FORMAT clock df Hbad).
  unfold process_file, try_block. cbv zeta. rewrite Hsrc, Hread.
  rewrite (clean_transaction_data_succeeds num_str CATEGORY_PATTERNS
             DATE_FORMAT clock df dt_desc Hraw Htyped Hdesc Hamt)
    by (rewrite Hs; intros r []).
  rewrite Hs. cbn [clean_df map]. unfold insert_transactions.
  cbn [empty rows List.length Nat.eqb orb].
  unfold move_to_processed, shutil_move. rewrite Hsrc. reflexivity.
Qed.

End EmptyBatch.

Lemma process_file_empty_batch_witness :
  process_file no_num_str (PROCESSED_FOLDER None) (FAILED_FOLDER None)
    read_all_dates_bad (insert_transactions database_down)
    wall_clock as_expected bare_disk morning
    "./finance/watch/feb.csv" [("./finance/watch/feb.csv", "date,...")]
  = Done [("./finance/watch/../processed/20240105_090307_feb.csv",
           "date,...")].
Proof.
  apply (process_file_empty_batch no_num_str (PROCESSED_FOLDER None)
           (FAILED_FOLDER None) read_all_dates_bad database_down
           wall_clock as_expected bare_disk morning
           "./finance/watch/feb.csv" [("./finance/watch/feb.csv", "date,...")]
           "date,..." all_dates_bad);
    try reflexivity.
  - intros r [<-|[<-|[]]]; reflexivity.
  - intros r reading [<-|[<-|[]]]; reflexivity.
Defined.

Lemma process_file_success_route_witness :
  exists fs',
    process_file no_num_str (PROCESSED_FOLDER None) (FAILED_FOLDER None)
      read_scenario_A insert_all wall_clock as_expected bare_disk morning
      "./finance/watch/jan.csv" [("./finance/watch/jan.csv", "date,...")]
    = Done fs'
    /\ lookup "./finance/watch/jan.csv" fs' = None
    /\ lookup "./finance/watch/../processed/20240105_090307_jan.csv" fs'
       = Some "date,...".
Proof.
  destruct (process_file_success_route no_num_str (PROCESSED_FOLDER None)
              (FAILED_FOLDER None) read_scenario_A insert_all
              wall_clock as_expected bare_disk morning
              "./finance/watch/jan.csv"
              [("./finance/watch/jan.csv", "date,...")]
              "date,..." scenario_A _ 1
              eq_refl eq_refl ltac:(vm_compute; reflexivity) eq_refl)
    as (fs' & Hrun & Hsrc & Hnew & _).
  exists fs'. split; [exact Hrun|]. split; [exact Hsrc|exact Hnew].
Defined.


(** ** The timestamp of a run *)

Lemma digit_inj (a b : nat) : digit a = digit b -> a mod 10 = b mod 10.
Proof.
  intros H. apply (f_equal digit_of) in H.
  rewrite !digit_of_digit in H. injection H as H. exact H.
Qed.

Lemma two_digits_inj (a b : nat) :
  a < 100 -> b < 100 ->
  (a / 10) mod 10 = (b / 10) mod 10 -> a mod 10 = b mod 10 -> a = b.
Proof.
  intros Ha Hb H1 H0.
  pose proof (Nat.div_mod_eq a 10). pose proof (Nat.div_mod_eq b 10).
  assert (a / 10 < 10) by (apply Nat.Div0.div_lt_upper_bound; lia).
  assert (b / 10 < 10) by (apply Nat.Div0.div_lt_upper_bound; lia).
  rewrite (Nat.mod_small (a / 10)) in H1 by assumption.
  rewrite (Nat.mod_small (b / 10)) in H1 by assumption.
  lia.
Qed.

Lemma string_tail_inj (c c' : ascii) (a b : string) :
  String c a = String c' b -> a = b.
Proof. intros H. injection H. auto. Qed.

Lemma pad2_append_inj (a b : nat) (r1 r2 : string) :
  a < 100 -> b < 100 ->
  pad2 a +++ r1 = pad2 b +++ r2 -> a = b /\ r1 = r2.
Proof.
  intros Ha Hb H. unfold pad2 in H. cbn [String.append] in H.
  injection H. intros. split; [|assumption].
  apply two_digits_inj; [assumption|assumption| |];
    apply digit_inj; assumption.
Qed.

Lemma pad4_append_inj (a b : nat) (r1 r2 : string) :
  a < 10 * 1000 -> b < 10 * 1000 ->
  pad4 a +++ r1 = pad4 b +++ r2 -> a = b /\ r1 = r2.
Proof.
  intros Ha Hb H. unfold pad4, pad2 in H. cbn [String.append] in H.
  injection H. intros. split; [|assumption].
  rewrite <- (four_digits a Ha), <- (four_digits b Hb).
  assert (E3 : (a / 1000) mod 10 = (b / 1000) mod 10)
    by (apply digit_inj; assumption).
  assert (E2 : (a / 100) mod 10 = (b / 100) mod 10)
    by (apply digit_inj; assumption).
  assert (E1 : (a / 10) mod 10 = (b / 10) mod 10)
    by (apply digit_inj; assumption).
  assert (E0 : a mod 10 = b mod 10) by (apply digit_inj; assumption).
  rewrite E3, E2, E1, E0. reflexivity.
Qed.

(** X18.  The timestamp put before the names of moved files tells the
    seconds apart: two moments (with a year of four digits and the other
    fields of two) that give the same YYYYMMDD_HHMMSS text are the same
    moment, so files moved at different seconds get different names. *)
Theorem strftime_stamp_injective (t1 t2 : datetime) :
  year (on t1) < 10 * 1000 -> year (on t2) < 10 * 1000 ->
  month (on t1) < 100 -> month (on t2) < 100 ->
  day (on t1) < 100 -> day (on t2) < 100 ->
  hour t1 < 100 -> hour t2 < 100 ->
  minute t1 < 100 -> minute t2 < 100 ->
  second t1 < 100 -> second t2 < 100 ->
  strftime_stamp t1 = strftime_stamp t2 ->
  t1 = t2.
Proof.
  intros Hy1 Hy2 Hm1 Hm2 Hd1 Hd2 Hh1 Hh2 Hmi1 Hmi2 Hs1 Hs2 H.
  destruct t1 as [[y1 m1 d1] h1 mi1 s1], t2 as [[y2 m2 d2] h2 mi2 s2].
  cbn [on year month day hour minute second] in *.
  unfold strftime_stamp in H.
  cbn [on year month day hour minute second] in H.
  apply pad4_append_inj in H; [|assumption|assumption].
  destruct H as [-> H].
  apply pad2_append_inj in H; [|assumption|assumption].
  destruct H as [-> H].
  apply pad2_append_inj in H; [|assumption|assumption].
  destruct H as [-> H].
  apply string_tail_inj in H.
  apply pad2_append_inj in H; [|assumption|assumption].
  destruct H as [-> H].
  apply pad2_append_inj in H; [|assumption|assumption].
  destruct H as [-> H].
  assert (H' : pad2 s1 +++ "" = pad2 s2 +++ "") by exact H.
  apply pad2_append_inj in H'; [|assumption|assumption].
  destruct H' as [-> _]. reflexivity.
Qed.

Lemma strftime_stamp_injective_witness :
  mkdatetime (mkdate 2024 1 5) 9 3 7 = morning.
Proof.
  apply strftime_stamp_injective; cbn; try lia. reflexivity.
Defined.
